(** * The Gantt-chart editor of [app.py]: store, renderer and callback

    A shallow embedding of the four pieces of [app.py] that carry state:
    the two store functions [save_state_to_db] and [load_state_from_db],
    the renderer [create_gantt_figure] and the Dash callback
    [update_gantt].  The database, the connection to it and the wall
    clock are made explicit as a [World] that every effectful function
    threads through; a Python exception is an explicit [Raise], be it
    from the database, from [json.loads] or from plotly, which refuses a
    chart with more resources than colours. *)

From Stdlib Require Import ZArith List Bool Ascii String.
From Stdlib Require Import DecimalString DecimalZ DecimalPos.
From stdpp Require Import base option gmap strings list fin_maps.

#[local] Open Scope string_scope.
#[local] Open Scope Z_scope.

(** ** Data model *)

(** A task is the five-key dict of the source.  The keys keep their
    spelling; [Complete] is the integer of the number input.  Every list
    the callback receives or loads is taken to be a list of such dicts:
    that is what the callback itself builds and what [save_state_to_db]
    is given to write. *)
Record Task := mkTask {
  Task_ : string;
  Start : string;
  Finish : string;
  Resource : string;
  Complete : Z
}.

(** One row of the table [gantt_states], without its key columns. *)
Record Row := mkRow {
  state_data : string;
  created_at : Z;
  updated_at : Z
}.

(** What one session with the database will meet: [psycopg2.connect]
    raising, [cur.execute] (or [conn.commit]) raising, or neither. *)
Inductive Link := LinkUp | ConnectFails | ExecuteFails.

(** The world outside the process.  [rows] is the table keyed by
    [(user_id, project_id)]; [wire] tells what the n-th connection meets
    and [dialled] counts the connections made so far; [clock] is the
    n-th reading of [datetime.now()] and [ticks] counts the readings. *)
Record World := mkWorld {
  rows : gmap (string * string) Row;
  wire : nat -> Link;
  dialled : nat;
  clock : nat -> Z;
  ticks : nat
}.

(** ** Exceptions and state *)

Inductive Exn :=
  OperationalError | DatabaseError | JSONDecodeError | PlotlyError.

Inductive Res (A : Type) :=
| Ok (a : A)
| Raise (e : Exn).
Arguments Ok {A} a.
Arguments Raise {A} e.

Definition M (A : Type) : Type := World -> Res A * World.

Definition ret {A} (a : A) : M A := fun w => (Ok a, w).

Definition bind {A B} (m : M A) (k : A -> M B) : M B :=
  fun w => match m w with
           | (Ok a, w') => k a w'
           | (Raise e, w') => (Raise e, w')
           end.

Definition raise {A} (e : Exn) : M A := fun w => (Raise e, w).

(** A computation that may raise but touches nothing outside. *)
Definition lift {A} (r : Res A) : M A := fun w => (r, w).

(** [try: body except: handler] with a bare [except]. *)
Definition try_except {A} (body : M A) (handler : M A) : M A :=
  fun w => match body w with
           | (Ok a, w') => (Ok a, w')
           | (Raise _, w') => handler w'
           end.

Notation "'do' x <- m ; k" := (bind m (fun x => k))
  (at level 10, x name, m at level 100, k at level 200).

(** ** Python truthiness of the values the callback tests *)

Definition truthy_str (o : option string) : bool :=
  match o with
  | Some s => negb (String.eqb s "")
  | None => false
  end.

Definition truthy_list {A} (o : option (list A)) : bool :=
  match o with
  | Some (_ :: _) => true
  | _ => false
  end.

(** [x or d] on an optional string and on an optional integer. *)
Definition or_str (o : option string) (d : string) : string :=
  match o with
  | Some s => if String.eqb s "" then d else s
  | None => d
  end.

Definition or_int (o : option Z) (d : Z) : Z :=
  match o with
  | Some z => if Z.eqb z 0 then d else z
  | None => d
  end.

Definition is_None {A} (o : option A) : bool :=
  match o with
  | None => true
  | Some _ => false
  end.

(** [a if a else b] on a possibly absent list. *)
Definition if_else {A} (o : option (list A)) (b : list A) : list A :=
  match o with
  | Some (x :: l) => x :: l
  | _ => b
  end.

(** [str(n)] for an integer, and [int(s)] on its image. *)
Definition str_int (z : Z) : string := NilZero.string_of_int (Z.to_int z).

Definition int_str (s : string) : option Z :=
  option_map Z.of_int (NilZero.int_of_string s).

(** The characters of a decimal integer: the sign and the ten digits. *)
Definition is_num (c : ascii) : bool :=
  Ascii.eqb c "-" || ((48 <=? N_of_ascii c) && (N_of_ascii c <=? 57))%N.

(** Every character of a string is one of a decimal integer. *)
Fixpoint all_num (s : string) : bool :=
  match s with
  | EmptyString => true
  | String c s' => is_num c && all_num s'
  end.

(** ** The database session *)

(** A connection: all the model keeps of it is whether statements run
    on it will go through. *)
Record Conn := mkConn { healthy : bool }.

(** The world once one more connection has been attempted, and once the
    clock has been read one more time. *)
Definition dial (w : World) : World :=
  mkWorld (rows w) (wire w) (S (dialled w)) (clock w) (ticks w).

Definition tick (w : World) : World :=
  mkWorld (rows w) (wire w) (dialled w) (clock w) (S (ticks w)).

Definition get_db_connection : M Conn :=
  fun w =>
    match wire w (dialled w) with
    | LinkUp => (Ok (mkConn true), dial w)
    | ExecuteFails => (Ok (mkConn false), dial w)
    | ConnectFails => (Raise OperationalError, dial w)
    end.

Definition datetime_now : M Z :=
  fun w => (Ok (clock w (ticks w)), tick w).

(** [INSERT ... ON CONFLICT (user_id, project_id) DO UPDATE SET
    state_data = .., updated_at = ..], committed. *)
Definition upsert (user_id project_id state_json : string) (now : Z)
    (t : gmap (string * string) Row) : gmap (string * string) Row :=
  match t !! (user_id, project_id) with
  | None => <[(user_id, project_id) := mkRow state_json now now]> t
  | Some old =>
      <[(user_id, project_id) := mkRow state_json (created_at old) now]> t
  end.

Definition execute_upsert (c : Conn) (user_id project_id state_json : string)
    (now : Z) : M unit :=
  fun w =>
    if healthy c
    then (Ok tt, mkWorld (upsert user_id project_id state_json now (rows w))
                         (wire w) (dialled w) (clock w) (ticks w))
    else (Raise DatabaseError, w).

(** [SELECT state_data, updated_at ... WHERE user_id = .. AND
    project_id = ..] followed by [fetchone]. *)
Definition execute_select (c : Conn) (user_id project_id : string)
    : M (option Row) :=
  fun w =>
    if healthy c
    then (Ok (rows w !! (user_id, project_id)), w)
    else (Raise DatabaseError, w).

(** ** Session constants and the seed schedule (lines 61-77) *)

Definition USER_ID : string := "default_user".
Definition PROJECT_ID : string := "my_project".

Definition DEFAULT_TASKS : list Task :=
  [ mkTask "Project Planning" "2025-11-01" "2025-11-05" "Project Manager" 100;
    mkTask "Requirements" "2025-11-04" "2025-11-10" "Business Analyst" 80;
    mkTask "Design Phase" "2025-11-08" "2025-11-15" "Design Team" 60;
    mkTask "Development Sprint 1" "2025-11-12" "2025-11-20" "Dev Team" 40;
    mkTask "Development Sprint 2" "2025-11-18" "2025-11-28" "Dev Team" 20;
    mkTask "Testing" "2025-11-25" "2025-12-05" "QA Team" 0 ].

(** ** The renderer (lines 79-93) *)

(** A row of the data frame: the task's columns and the added column
    [TaskDisplay]. *)
Record FrameRow := mkFrameRow {
  row_task : Task;
  TaskDisplay : string
}.

(** One bar of the chart: what [ff.create_gantt] reads of a row of the
    frame, namely the columns [Task], [Start], [Finish] and the index
    column [Resource].  The columns [Complete] and [TaskDisplay] are in
    the frame but no argument of the call names them, and they do not
    reach the figure. *)
Record Bar := mkBar {
  bar_task : string;
  bar_start : string;
  bar_finish : string;
  bar_resource : string
}.

(** The figure: its bars, the arguments of [ff.create_gantt] and the
    three settings of the layout that [update_layout] changes.  How a
    bar is placed and which colour of the palette it gets is plotly's
    drawing and is not described. *)
Record Figure := mkFigure {
  bars : list Bar;
  colors : list string;
  index_col : string;
  show_colorbar : bool;
  group_tasks : bool;
  title : string;
  xaxis_title : string;
  height : Z;
  hovermode : string
}.

(** The f-string of line 84. *)
Definition task_display (t : Task) : string :=
  Task_ t ++ " (" ++ str_int (Complete t) ++ "%)".

Definition gantt_bars (df : list FrameRow) : list Bar :=
  map (fun r => mkBar (Task_ (row_task r)) (Start (row_task r))
                  (Finish (row_task r)) (Resource (row_task r))) df.

(** [ff.create_gantt] of plotly, called with a list of colours and a
    text index column: it collects the distinct values of the index
    column and raises [PlotlyError] when there are more of them than
    colours; otherwise it returns the figure (600 high before the
    layout is updated). *)
Definition ff_create_gantt (df : list FrameRow) (colors : list string)
    (index_col : string) (show_colorbar group_tasks : bool) (title : string)
    : Res Figure :=
  let index_vals := remove_dups (map (fun r => Resource (row_task r)) df) in
  if (length colors <? length index_vals)%nat
  then Raise PlotlyError
  else Ok (mkFigure (gantt_bars df) colors index_col show_colorbar
             group_tasks title "" 600 "closest").

Definition update_layout (fig : Figure) (xaxis_title : string) (height : Z)
    (hovermode : string) : Figure :=
  mkFigure (bars fig) (colors fig) (index_col fig) (show_colorbar fig)
           (group_tasks fig) (title fig) xaxis_title height hovermode.

Definition create_gantt_figure (tasks : list Task) : Res Figure :=
  let tasks := match tasks with [] => DEFAULT_TASKS | _ :: _ => tasks end in
  let df := map (fun t => mkFrameRow t (task_display t)) tasks in
  match ff_create_gantt df
          ["#FF6B6B"; "#4ECDC4"; "#45B7D1"; "#96CEB4"; "#FFEAA7"; "#DFE6E9"]
          "Resource" true true "📊 Project Gantt Chart" with
  | Ok fig => Ok (update_layout fig "Timeline" 500 "closest")
  | Raise e => Raise e
  end.

(** ** Inputs and outputs of the callback (lines 156-177) *)

(** An output either carries a value or is [dash.no_update]. *)
Inductive Out (A : Type) :=
| no_update
| Set_ (a : A).
Arguments no_update {A}.
Arguments Set_ {A} a.

(** The six [State] arguments.  The four [Input] counters are not read
    by the body and are left out. *)
Record Form := mkForm {
  task_name : option string;
  start_date : option string;
  end_date : option string;
  resource : option string;
  complete_pct : option Z;
  stored_data : option (list Task)
}.

(** The eight outputs, in the order of the decorator. *)
Record Outputs := mkOutputs {
  out_figure : Figure;
  out_store : list Task;
  out_status : string;
  out_task_name : Out string;
  out_start_date : Out string;
  out_end_date : Out string;
  out_resource : Out string;
  out_complete_pct : Out Z
}.

Definition is_id (triggered_id : option string) (id : string) : bool :=
  match triggered_id with
  | Some s => String.eqb s id
  | None => false
  end.

(** [strftime('%H:%M:%S')] of a reading of the clock, taken as seconds. *)
Definition two_digits (n : Z) : string :=
  if n <? 10 then "0" ++ str_int n else str_int n.

Definition strftime_HMS (t : Z) : string :=
  two_digits ((t / 3600) mod 24) ++ ":" ++
  two_digits ((t / 60) mod 60) ++ ":" ++ two_digits (t mod 60).

(** ** The store (lines 15-59) and the callback (lines 176-217) *)

Section Store.

(** Python's [json.dumps] and [json.loads] at the type of task lists.
    [json_loads] is [None] where [json.loads] raises.  A row is taken to
    hold what [save_state_to_db] wrote, the text of a task list, or text
    that [json.loads] rejects; JSON of another shape is outside the
    types of this model. *)
Variable json_dumps : list Task -> string.
Variable json_loads : string -> option (list Task).

Definition loads (s : string) : M (list Task) :=
  match json_loads s with
  | Some v => ret v
  | None => raise JSONDecodeError
  end.

Definition save_state_to_db (user_id project_id : string)
    (tasks : list Task) : M bool :=
  do conn <- get_db_connection;
  let state_json := json_dumps tasks in
  do now <- datetime_now;
  do _ <- execute_upsert conn user_id project_id state_json now;
  ret true.

Definition load_state_from_db (user_id project_id : string)
    : M (option (list Task)) :=
  try_except
    (do conn <- get_db_connection;
     do result <- execute_select conn user_id project_id;
     match result with
     | Some r => do v <- loads (state_data r); ret (Some v)
     | None => ret None
     end)
    (ret None).

(** [tasks.append] changes a list in place.  The list is the decoded
    snapshot, the decoded row or a copy of [DEFAULT_TASKS] (lines 184 and
    187), never the constant itself, and nothing else holds it, so a
    fresh list value per step tells the same story. *)
Definition update_gantt (triggered_id : option string) (f : Form)
    : M Outputs :=
  do tasks <-
    (if is_None (stored_data f)
        || is_id triggered_id "reload-btn"
     then
       do loaded <- load_state_from_db USER_ID PROJECT_ID;
       ret (if_else loaded DEFAULT_TASKS)
     else
       ret (if_else (stored_data f) DEFAULT_TASKS));
  let status_msg := "" in
  let clear_inputs := false in
  do st <-
    (if is_id triggered_id "add-task-btn" && truthy_str (task_name f)
        && truthy_str (start_date f) && truthy_str (end_date f)
     then
       let new_task :=
         mkTask (default "" (task_name f)) (default "" (start_date f))
                (default "" (end_date f))
                (or_str (resource f) "Unassigned")
                (or_int (complete_pct f) 0) in
       let tasks := (tasks ++ [new_task])%list in
       let status_msg := "✅ Added: '" ++ default "" (task_name f) ++ "'" in
       do _ <- save_state_to_db USER_ID PROJECT_ID tasks;
       ret (tasks, status_msg, true)
     else if is_id triggered_id "manual-save-btn" then
       do _ <- save_state_to_db USER_ID PROJECT_ID tasks;
       do now <- datetime_now;
       ret (tasks, "✅ Saved at " ++ strftime_HMS now, clear_inputs)
     else if is_id triggered_id "reload-btn" then
       do loaded <- load_state_from_db USER_ID PROJECT_ID;
       ret (if_else loaded tasks, "✅ Reloaded from database", clear_inputs)
     else if is_id triggered_id "auto-save-interval"
             && truthy_list (Some tasks) then
       do _ <- save_state_to_db USER_ID PROJECT_ID tasks;
       do now <- datetime_now;
       ret (tasks, "🔄 Auto-saved at " ++ strftime_HMS now, clear_inputs)
     else
       ret (tasks, status_msg, clear_inputs));
  let '(tasks, status_msg, clear_inputs) := st in
  do fig <- lift (create_gantt_figure tasks);
  if clear_inputs
  then ret (mkOutputs fig tasks status_msg
              (Set_ "") (Set_ "") (Set_ "") (Set_ "") (Set_ 0))
  else ret (mkOutputs fig tasks status_msg
              no_update no_update no_update no_update no_update).

End Store.

(** ** A codec for task lists

    For task lists whose strings are ASCII, the text [json.dumps] writes
    (its default separators, keys in insertion order, control characters
    escaped), and a reader that accepts exactly that text.  Bytes above
    127 are copied as they are, where Python writes an escape, and JSON
    in any other layout or of another shape is refused.  It is the
    instance at which the store and the callback are run on the sample
    inputs; the properties themselves are stated for any codec. *)

Module Json.

Definition dq : ascii := Eval cbv in ascii_of_nat 34.
Definition bs : ascii := Eval cbv in ascii_of_nat 92.

(** The lower-case hexadecimal digit of a value below 16, and the value
    of a hexadecimal digit of either case. *)
Definition hex_digit (n : N) : ascii :=
  if (n <? 10)%N then ascii_of_N (48 + n) else ascii_of_N (87 + n).

Definition hex_value (c : ascii) : option N :=
  let n := N_of_ascii c in
  if ((48 <=? n) && (n <=? 57))%N then Some (n - 48)%N
  else if ((97 <=? n) && (n <=? 102))%N then Some (n - 87)%N
  else if ((65 <=? n) && (n <=? 70))%N then Some (n - 55)%N
  else None.

(** One character of a string literal, as [json.dumps] writes it. *)
Definition escape_char (c : ascii) : string :=
  if Ascii.eqb c dq then String bs (String dq "")
  else if Ascii.eqb c bs then String bs (String bs "")
  else if Ascii.eqb c "010" then "\n"
  else if Ascii.eqb c "013" then "\r"
  else if Ascii.eqb c "009" then "\t"
  else if Ascii.eqb c "008" then "\b"
  else if Ascii.eqb c "012" then "\f"
  else if (N_of_ascii c <? 32)%N then
    "\u00" ++ String (hex_digit (N_of_ascii c / 16))
                (String (hex_digit (N_of_ascii c mod 16)) "")
  else String c "".

Fixpoint escape (s : string) : string :=
  match s with
  | EmptyString => ""
  | String c s' => escape_char c ++ escape s'
  end.

Definition string_lit (s : string) : string :=
  String dq (escape s ++ String dq "").

Definition dumps_task (t : Task) : string :=
  "{" ++ string_lit "Task" ++ ": " ++ string_lit (Task_ t) ++ ", " ++
  string_lit "Start" ++ ": " ++ string_lit (Start t) ++ ", " ++
  string_lit "Finish" ++ ": " ++ string_lit (Finish t) ++ ", " ++
  string_lit "Resource" ++ ": " ++ string_lit (Resource t) ++ ", " ++
  string_lit "Complete" ++ ": " ++ str_int (Complete t) ++ "}".

Fixpoint dumps_items (ts : list Task) : string :=
  match ts with
  | [] => ""
  | [t] => dumps_task t
  | t :: ts' => dumps_task t ++ ", " ++ dumps_items ts'
  end.

Definition dumps (ts : list Task) : string := "[" ++ dumps_items ts ++ "]".

(** *** Reading it back *)

Definition push (c : ascii) (r : option (string * string))
    : option (string * string) :=
  match r with
  | Some (s, rest) => Some (String c s, rest)
  | None => None
  end.

Definition unescape (e : ascii) : option ascii :=
  if Ascii.eqb e dq then Some dq
  else if Ascii.eqb e bs then Some bs
  else if Ascii.eqb e "/" then Some "/"%char
  else if Ascii.eqb e "n" then Some "010"%char
  else if Ascii.eqb e "r" then Some "013"%char
  else if Ascii.eqb e "t" then Some "009"%char
  else if Ascii.eqb e "b" then Some "008"%char
  else if Ascii.eqb e "f" then Some "012"%char
  else None.

(** The characters of a string literal after its opening quote, up to
    and including the closing one. *)
Fixpoint parse_chars (s : string) : option (string * string) :=
  match s with
  | EmptyString => None
  | String c s1 =>
    if Ascii.eqb c dq then Some ("", s1)
    else if Ascii.eqb c bs then
      match s1 with
      | EmptyString => None
      | String e s2 =>
        if Ascii.eqb e "u" then
          match s2 with
          | String z1 (String z2 (String h (String l s3))) =>
            match hex_value h, hex_value l with
            | Some a, Some b =>
              if Ascii.eqb z1 "0" && Ascii.eqb z2 "0"
              then push (ascii_of_N (16 * a + b)) (parse_chars s3)
              else None
            | _, _ => None
            end
          | _ => None
          end
        else
          match unescape e with
          | Some ch => push ch (parse_chars s2)
          | None => None
          end
      end
    else if (N_of_ascii c <? 32)%N then None
    else push c (parse_chars s1)
  end.

Fixpoint strip (p s : string) : option string :=
  match p, s with
  | EmptyString, _ => Some s
  | String a p', String b s' => if Ascii.eqb a b then strip p' s' else None
  | String _ _, EmptyString => None
  end.

Definition parse_string_lit (s : string) : option (string * string) :=
  match s with
  | String c s' => if Ascii.eqb c dq then parse_chars s' else None
  | EmptyString => None
  end.

Fixpoint span_num (s : string) : string * string :=
  match s with
  | EmptyString => ("", "")
  | String c s' =>
    if is_num c
    then let '(n, r) := span_num s' in (String c n, r)
    else ("", s)
  end.

Definition parse_int (s : string) : option (Z * string) :=
  let '(n, r) := span_num s in
  match int_str n with
  | Some z => Some (z, r)
  | None => None
  end.

Definition field (key : string) (s : string) : option (string * string) :=
  match strip (string_lit key ++ ": ") s with
  | Some s' => parse_string_lit s'
  | None => None
  end.

Definition parse_task (s : string) : option (Task * string) :=
  s ← strip "{" s;
  '(name, s) ← field "Task" s;
  s ← strip ", " s;
  '(start, s) ← field "Start" s;
  s ← strip ", " s;
  '(finish, s) ← field "Finish" s;
  s ← strip ", " s;
  '(res, s) ← field "Resource" s;
  s ← strip ", " s;
  s ← strip (string_lit "Complete" ++ ": ") s;
  '(pct, s) ← parse_int s;
  s ← strip "}" s;
  Some (mkTask name start finish res pct, s).

(** Tasks separated by [", "] up to the closing bracket. *)
Fixpoint parse_items (fuel : nat) (s : string) : option (list Task * string) :=
  match fuel with
  | O => None
  | S fuel' =>
    '(t, s) ← parse_task s;
    match strip "]" s with
    | Some rest => Some ([t], rest)
    | None =>
      s ← strip ", " s;
      '(ts, rest) ← parse_items fuel' s;
      Some (t :: ts, rest)
    end
  end.

Definition loads (s : string) : option (list Task) :=
  s' ← strip "[" s;
  match strip "]" s' with
  | Some rest => if String.eqb rest "" then Some [] else None
  | None =>
    '(ts, rest) ← parse_items (String.length s') s';
    if String.eqb rest "" then Some ts else None
  end.

End Json.

(** ** Notions used to state the properties *)

(** The row of the one session the application serves. *)
Definition session_key : string * string := (USER_ID, PROJECT_ID).

(** What a select for a key answers in a world: the decoded list of the
    row when the connection works, the row exists and its text decodes. *)
Definition stored_list (json_loads : string -> option (list Task))
    (user_id project_id : string) (w : World) : option (list Task) :=
  match wire w (dialled w) with
  | LinkUp =>
      match rows w !! (user_id, project_id) with
      | Some r => json_loads (state_data r)
      | None => None
      end
  | _ => None
  end.

(** The world after a save that went through. *)
Definition written (json_dumps : list Task -> string)
    (user_id project_id : string) (tasks : list Task) (w : World) : World :=
  mkWorld (upsert user_id project_id (json_dumps tasks) (clock w (ticks w))
             (rows w))
          (wire w) (S (dialled w)) (clock w) (S (ticks w)).

Definition with_store (f : Form) (s : option (list Task)) : Form :=
  mkForm (task_name f) (start_date f) (end_date f) (resource f)
         (complete_pct f) s.

(** A text field that is absent or empty. *)
Definition blank (o : option string) : Prop := o = None \/ o = Some "".

(** The form is complete enough for a task to be added. *)
Definition addable (f : Form) : bool :=
  truthy_str (task_name f) && truthy_str (start_date f)
  && truthy_str (end_date f).

(** A list when there is one and it is not empty, the six default tasks
    otherwise. *)
Definition or_default (o : option (list Task)) : list Task :=
  match o with
  | Some (t :: l) => t :: l
  | Some [] => DEFAULT_TASKS
  | None => DEFAULT_TASKS
  end.

(** The list the callback holds once lines 182-187 have run, and the
    world it is then in, for a trigger other than Reload. *)
Definition list_in_hand (json_loads : string -> option (list Task))
    (f : Form) (w : World) : list Task :=
  match stored_data f with
  | None => or_default (stored_list json_loads USER_ID PROJECT_ID w)
  | Some l => or_default (Some l)
  end.

Definition world_in_hand (f : Form) (w : World) : World :=
  match stored_data f with
  | None => dial w
  | Some _ => w
  end.

(** The task that AddTask builds from the form (lines 193-196). *)
Definition task_of_form (f : Form) : Task :=
  mkTask (default "" (task_name f)) (default "" (start_date f))
         (default "" (end_date f))
         (or_str (resource f) "Unassigned") (or_int (complete_pct f) 0).

(** The number of different resources named in a list. *)
Definition distinct_resources (tasks : list Task) : nat :=
  length (remove_dups (map Resource tasks)).

(** The figure of a list that can be drawn: one bar per task, in order,
    under the fixed palette, title and layout. *)
Definition chart (tasks : list Task) : Figure :=
  mkFigure
    (map (fun t => mkBar (Task_ t) (Start t) (Finish t) (Resource t))
       (match tasks with [] => DEFAULT_TASKS | _ :: _ => tasks end))
    ["#FF6B6B"; "#4ECDC4"; "#45B7D1"; "#96CEB4"; "#FFEAA7"; "#DFE6E9"]
    "Resource" true true "📊 Project Gantt Chart" "Timeline" 500 "closest".

(** The outputs of a run that shows [tasks] with a status, the input
    fields cleared or left alone. *)
Definition outputs (tasks : list Task) (status : string) (cleared : bool)
    : Outputs :=
  if cleared
  then mkOutputs (chart tasks) tasks status
         (Set_ "") (Set_ "") (Set_ "") (Set_ "") (Set_ 0)
  else mkOutputs (chart tasks) tasks status
         no_update no_update no_update no_update no_update.

(** How a run ends once its list and status are fixed: with the outputs
    when the list names at most six resources, with [PlotlyError] when it
    names more. *)
Definition shows (tasks : list Task) (status : string) (cleared : bool)
    : Res Outputs :=
  if (distinct_resources tasks <=? 6)%nat
  then Ok (outputs tasks status cleared)
  else Raise PlotlyError.

(** What one run of the callback may leave behind, starting from [w].
    If it returns, the snapshot is not empty, the chart is the chart of
    that very list, and the table is either untouched or received that
    list by one upsert of the session's row.  If it raises, the table is
    either untouched or received, by one upsert of the session's row, a
    list that is not empty. *)
Definition settled (json_dumps : list Task -> string) (w : World)
    (r : Res Outputs * World) : Prop :=
  match r with
  | (Ok out, w') =>
      out_store out <> []
      /\ create_gantt_figure (out_store out) = Ok (out_figure out)
      /\ map bar_task (bars (out_figure out)) = map Task_ (out_store out)
      /\ (rows w' = rows w
          \/ exists now, rows w' = upsert USER_ID PROJECT_ID
                                     (json_dumps (out_store out)) now (rows w))
  | (Raise _, w') =>
      rows w' = rows w
      \/ exists tasks now,
           tasks <> []
           /\ rows w' = upsert USER_ID PROJECT_ID (json_dumps tasks) now
                          (rows w)
  end.

(** The five input-field outputs are all [dash.no_update]. *)
Definition inputs_kept (out : Outputs) : Prop :=
  out_task_name out = no_update /\ out_start_date out = no_update
  /\ out_end_date out = no_update /\ out_resource out = no_update
  /\ out_complete_pct out = no_update.

(** Reading the completion back from a display label: the digits (and
    sign) that stand between the last [" ("] and the closing ["%)"]. *)
Fixpoint take_num (l : list ascii) : list ascii :=
  match l with
  | c :: l' => if is_num c then c :: take_num l' else []
  | [] => []
  end.

Definition parse_completion (label : string) : option Z :=
  match rev (list_ascii_of_string label) with
  | c1 :: c2 :: r =>
      if Ascii.eqb c1 ")" && Ascii.eqb c2 "%" then
        let num := take_num r in
        match drop (length num) r with
        | c3 :: c4 :: _ =>
            if Ascii.eqb c3 "(" && Ascii.eqb c4 " "
            then int_str (string_of_list_ascii (rev num))
            else None
        | _ => None
        end
      else None
  | _ => None
  end.

(** ** Sample worlds and forms *)

(** An empty table behind a working connection; the clock reads 0, 1, 2... *)
Definition fresh_world : World :=
  mkWorld ∅ (fun _ => LinkUp) 0 (fun n => Z.of_nat n) 0.

(** The same with a database that cannot be reached. *)
Definition dark_world : World :=
  mkWorld ∅ (fun _ => ConnectFails) 0 (fun n => Z.of_nat n) 0.

Definition sample_task : Task :=
  mkTask "T1" "2025-01-01" "2025-01-05" "Eng" 50.

Definition sample_form (stored : option (list Task)) : Form :=
  mkForm (Some "T1") (Some "2025-01-01") (Some "2025-01-05") (Some "Eng")
         (Some 50) stored.

Definition nameless_form (stored : option (list Task)) : Form :=
  mkForm (Some "") (Some "2025-01-01") (Some "2025-01-05") (Some "Eng")
         (Some 50) stored.

(** A form that brings a seventh resource to the default list extended
    by [sample_task]. *)
Definition ops_form (stored : option (list Task)) : Form :=
  mkForm (Some "T7") (Some "2025-02-01") (Some "2025-02-03") (Some "Ops")
         (Some 10) stored.

(** ** The trigger of a call (lines 179-180) *)

(** One entry of [callback_context.triggered]; only its [prop_id] is
    read. *)
Record TriggeredProp := mkTriggeredProp { prop_id : string }.

(** [s.split('.')[0]]: the text before the first dot, all of it when
    there is none. *)
Fixpoint before_dot (s : string) : string :=
  match s with
  | EmptyString => EmptyString
  | String c s' => if Ascii.eqb c "." then EmptyString
                   else String c (before_dot s')
  end.

Definition triggered_id_of (triggered : list TriggeredProp) : option string :=
  match triggered with
  | t :: _ => Some (before_dot (prop_id t))
  | [] => None
  end.

(** The callback as Dash calls it: the trigger is read off the context
    and the body of [update_gantt] follows. *)
Definition update_gantt_ctx (json_dumps : list Task -> string)
    (json_loads : string -> option (list Task))
    (triggered : list TriggeredProp) (f : Form) : M Outputs :=
  update_gantt json_dumps json_loads (triggered_id_of triggered) f.

(** The trigger takes one of the three branches that call
    [save_state_to_db] (lines 192, 201 and 208), given that the list in
    hand is never empty. *)
Definition saves (triggered_id : option string) (f : Form) : bool :=
  is_id triggered_id "add-task-btn" && addable f
  || is_id triggered_id "manual-save-btn"
  || is_id triggered_id "auto-save-interval".

(** A store that cannot be reached for the first connection and can for
    every later one, holding a list under the session's key. *)
Definition flaky_world : World :=
  mkWorld {[ (USER_ID, PROJECT_ID) :=
               mkRow (Json.dumps [mkTask "T1" "2025-01-01" "2025-01-05" "Eng" 50])
                     0 0 ]}
          (fun n => match n with O => ConnectFails | S _ => LinkUp end)
          0 (fun n => Z.of_nat n) 0.

(** * Properties *)

(** ** Sample runs *)

Example str_int_samples :
  str_int 0 = "0" /\ str_int 100 = "100" /\ str_int (-5) = "-5".
Proof. repeat split. Qed.

Example task_display_sample :
  map task_display DEFAULT_TASKS
  = ["Project Planning (100%)"; "Requirements (80%)"; "Design Phase (60%)";
     "Development Sprint 1 (40%)"; "Development Sprint 2 (20%)";
     "Testing (0%)"].
Proof. reflexivity. Qed.

Example parse_completion_samples :
  parse_completion "Testing (0%)" = Some 0
  /\ parse_completion "Phase (2) (1%) (-7%)" = Some (-7)
  /\ parse_completion "Testing" = None.
Proof. repeat split. Qed.

Example strftime_sample : strftime_HMS 45296 = "12:34:56".
Proof. reflexivity. Qed.

Example json_sample :
  Json.loads (Json.dumps DEFAULT_TASKS) = Some DEFAULT_TASKS
  /\ Json.loads (Json.dumps []) = Some []
  /\ Json.loads "not json" = None.
Proof. repeat split. Qed.

(** The default list names five resources and is drawn; the default
    list with [sample_task] names six and is drawn; one more resource
    and plotly raises. *)
Example six_resources_at_most :
  create_gantt_figure DEFAULT_TASKS = Ok (chart DEFAULT_TASKS)
  /\ create_gantt_figure (DEFAULT_TASKS ++ [sample_task])
     = Ok (chart (DEFAULT_TASKS ++ [sample_task]))
  /\ create_gantt_figure
       (DEFAULT_TASKS ++ [sample_task; task_of_form (ops_form None)])
     = Raise PlotlyError.
Proof. repeat split. Qed.

(** A first page load on an empty, reachable store: one connection is
    used, the default list is shown and nothing is written. *)
Example first_page_load :
  update_gantt Json.dumps Json.loads None
    (mkForm None None None None (Some 0) None) fresh_world
  = (Ok (outputs DEFAULT_TASKS "" false), dial fresh_world).
Proof. reflexivity. Qed.

(** A manual save on a store that cannot be reached raises. *)
Example manual_save_in_the_dark :
  fst (update_gantt Json.dumps Json.loads (Some "manual-save-btn")
         (sample_form (Some DEFAULT_TASKS)) dark_world)
  = Raise OperationalError.
Proof. reflexivity. Qed.

(** ** Strings and decimal integers *)

Lemma append_assoc (a b c : string) : (a ++ b) ++ c = a ++ (b ++ c).
Proof.
  induction a as [|x a IH]; [reflexivity |].
  change (String x ((a ++ b) ++ c) = String x (a ++ (b ++ c))).
  now rewrite IH.
Qed.

Lemma append_nil_r (a : string) : a ++ "" = a.
Proof.
  induction a as [|x a IH]; [reflexivity |].
  change (String x (a ++ "") = String x a). now rewrite IH.
Qed.

Lemma length_append (a b : string) :
  String.length (a ++ b) = (String.length a + String.length b)%nat.
Proof.
  induction a as [|x a IH]; [reflexivity |].
  change (S (String.length (a ++ b)) = S (String.length a + String.length b)).
  now rewrite IH.
Qed.

Lemma all_num_uint (d : Decimal.uint) :
  all_num (NilEmpty.string_of_uint d) = true.
Proof. induction d; cbn [NilEmpty.string_of_uint all_num]; auto. Qed.

Lemma all_num_str_int (z : Z) : all_num (str_int z) = true.
Proof.
  unfold str_int.
  destruct (Z.to_int z) as [d|d]; cbn [NilZero.string_of_int];
    destruct d; try reflexivity;
    cbn [NilZero.string_of_uint NilEmpty.string_of_uint all_num];
    rewrite ?all_num_uint; reflexivity.
Qed.

Lemma int_str_str_int (z : Z) : int_str (str_int z) = Some z.
Proof.
  unfold int_str, str_int.
  rewrite NilZero.isi.
  - cbn [option_map]. now rewrite DecimalZ.of_to.
  - destruct z; cbn; try discriminate.
    intros [= H]. now apply Unsigned.to_uint_nonnil in H.
  - destruct z; cbn; try discriminate.
    intros [= H]. now apply Unsigned.to_uint_nonnil in H.
Qed.

(** ** The codec reads back what it wrote *)

Module JsonFacts.
Import Json.

Lemma strip_append (p s : string) : strip p (p ++ s) = Some s.
Proof.
  induction p as [|a p IH]; [reflexivity |].
  change (strip (String a p) (String a (p ++ s)) = Some s).
  cbn [strip]. now rewrite Ascii.eqb_refl.
Qed.

Lemma parse_escape_char (c : ascii) (rest : string) :
  parse_chars (escape_char c ++ rest) = push c (parse_chars rest).
Proof. destruct c as [[] [] [] [] [] [] [] []]; reflexivity. Qed.

Lemma parse_escape (s rest : string) :
  parse_chars (escape s ++ String dq rest) = Some (s, rest).
Proof.
  induction s as [|c s IH].
  - reflexivity.
  - cbn [escape]. rewrite append_assoc, parse_escape_char, IH. reflexivity.
Qed.

Lemma parse_string_lit_ok (s rest : string) :
  parse_string_lit (string_lit s ++ rest) = Some (s, rest).
Proof.
  unfold string_lit.
  change (parse_string_lit
            (String dq ((escape s ++ String dq "") ++ rest)) = Some (s, rest)).
  cbn [parse_string_lit]. rewrite Ascii.eqb_refl, append_assoc.
  apply parse_escape.
Qed.

Lemma field_ok (key v rest : string) :
  field key (string_lit key ++ ": " ++ string_lit v ++ rest) = Some (v, rest).
Proof.
  unfold field.
  rewrite <- (append_assoc (string_lit key) ": "), strip_append.
  apply parse_string_lit_ok.
Qed.

Lemma span_num_append (k rest : string) :
  all_num k = true ->
  span_num (k ++ rest) = (k ++ fst (span_num rest), snd (span_num rest)).
Proof.
  induction k as [|c k IH]; intros Hk.
  - change (span_num rest = (fst (span_num rest), snd (span_num rest))).
    now destruct (span_num rest).
  - cbn [all_num] in Hk. apply andb_true_iff in Hk as [Hc Hk].
    change (span_num (String c (k ++ rest)) =
            (String c (k ++ fst (span_num rest)), snd (span_num rest))).
    cbn [span_num]. rewrite Hc, (IH Hk). reflexivity.
Qed.

Lemma parse_int_ok (z : Z) (c : ascii) (rest : string) :
  is_num c = false ->
  parse_int (str_int z ++ String c rest) = Some (z, String c rest).
Proof.
  intros Hc. unfold parse_int.
  rewrite span_num_append by apply all_num_str_int.
  cbn [span_num]. rewrite Hc. cbn [fst snd].
  rewrite append_nil_r, int_str_str_int. reflexivity.
Qed.

Lemma parse_task_ok (t : Task) (rest : string) :
  parse_task (dumps_task t ++ rest) = Some (t, rest).
Proof.
  unfold parse_task, dumps_task.
  repeat rewrite append_assoc.
  rewrite strip_append. cbn [mbind option_bind].
  rewrite field_ok. cbn [mbind option_bind].
  rewrite strip_append. cbn [mbind option_bind].
  rewrite field_ok. cbn [mbind option_bind].
  rewrite strip_append. cbn [mbind option_bind].
  rewrite field_ok. cbn [mbind option_bind].
  rewrite strip_append. cbn [mbind option_bind].
  rewrite field_ok. cbn [mbind option_bind].
  rewrite strip_append. cbn [mbind option_bind].
  rewrite <- (append_assoc (string_lit "Complete") ": "), strip_append.
  cbn [mbind option_bind].
  change ("}" ++ rest) with (String "}" rest).
  rewrite parse_int_ok by reflexivity. cbn [mbind option_bind].
  change (String "}" rest) with ("}" ++ rest).
  rewrite strip_append. cbn [mbind option_bind].
  now destruct t.
Qed.

Lemma dumps_items_cons (t t' : Task) (ts : list Task) :
  dumps_items (t :: t' :: ts) = dumps_task t ++ ", " ++ dumps_items (t' :: ts).
Proof. reflexivity. Qed.

Lemma dumps_task_head (t : Task) :
  exists s, dumps_task t = String "{" s.
Proof. eexists. unfold dumps_task. reflexivity. Qed.

Lemma parse_items_ok (ts : list Task) :
  forall (t : Task) (rest : string) (fuel : nat),
    (length (t :: ts) <= fuel)%nat ->
    parse_items fuel (dumps_items (t :: ts) ++ "]" ++ rest)
    = Some (t :: ts, rest).
Proof.
  induction ts as [|t' ts IH]; intros t rest fuel Hfuel;
    (destruct fuel as [|fuel]; [cbn in Hfuel; lia |]); cbn [parse_items].
  - cbn [dumps_items]. rewrite parse_task_ok. cbn [mbind option_bind].
    rewrite strip_append. reflexivity.
  - rewrite dumps_items_cons, !append_assoc, parse_task_ok.
    cbn [mbind option_bind].
    change (strip "]" (", " ++ dumps_items (t' :: ts) ++ "]" ++ rest))
      with (@None string).
    rewrite strip_append. cbn [mbind option_bind].
    rewrite IH by (cbn in Hfuel |- *; lia). reflexivity.
Qed.

Lemma dumps_items_length (ts : list Task) :
  (length ts <= String.length (dumps_items ts))%nat.
Proof.
  induction ts as [|t ts IH]; [cbn; lia |].
  destruct (dumps_task_head t) as [s Hs].
  destruct ts as [|t' ts].
  - cbn [dumps_items]. rewrite Hs. cbn. lia.
  - rewrite dumps_items_cons, Hs.
    change (String "{" s ++ ", " ++ dumps_items (t' :: ts))
      with (String "{" (s ++ ", " ++ dumps_items (t' :: ts))).
    cbn [String.length length]. rewrite !length_append.
    cbn [length] in IH. lia.
Qed.

(** [loads] inverts [dumps]. *)
Lemma loads_dumps (ts : list Task) : loads (dumps ts) = Some ts.
Proof.
  unfold loads, dumps. rewrite strip_append. cbn [mbind option_bind].
  destruct ts as [|t ts]; [reflexivity |].
  assert (Hnone : strip "]" (dumps_items (t :: ts) ++ "]") = None).
  { destruct (dumps_task_head t) as [s Hs].
    destruct ts as [|t' ts];
      [cbn [dumps_items] | rewrite dumps_items_cons]; rewrite Hs;
      reflexivity. }
  rewrite Hnone.
  pose proof (parse_items_ok ts t "" (String.length (dumps_items (t :: ts) ++ "]"))) as H.
  change ("]" ++ "") with "]" in H.
  rewrite H; [reflexivity |].
  rewrite length_append. pose proof (dumps_items_length (t :: ts)). lia.
Qed.

End JsonFacts.

(** ** The store *)

Section Properties.

Variable json_dumps : list Task -> string.
Variable json_loads : string -> option (list Task).

#[local] Abbreviation save := (save_state_to_db json_dumps).
#[local] Abbreviation load := (load_state_from_db json_loads).

(** A load always returns; it answers [stored_list] and only uses up
    one connection. *)
Lemma load_eq (user_id project_id : string) (w : World) :
  load user_id project_id w
  = (Ok (stored_list json_loads user_id project_id w), dial w).
Proof.
  unfold load_state_from_db, try_except, bind, get_db_connection,
    execute_select, stored_list, loads, ret, raise.
  destruct (wire w (dialled w)); cbn; try reflexivity.
  destruct (rows (dial w) !! (user_id, project_id)) as [r|] eqn:Hr;
    cbn in Hr; rewrite Hr; [| reflexivity].
  destruct (json_loads (state_data r)); reflexivity.
Qed.

Lemma save_up (user_id project_id : string) (tasks : list Task) (w : World) :
  wire w (dialled w) = LinkUp ->
  save user_id project_id tasks w
  = (Ok true, written json_dumps user_id project_id tasks w).
Proof.
  intros Hup.
  unfold save_state_to_db, bind, get_db_connection, datetime_now,
    execute_upsert, ret. rewrite Hup. reflexivity.
Qed.

(** A save that raises has written nothing. *)
Lemma save_down (user_id project_id : string) (tasks : list Task) (w : World) :
  wire w (dialled w) <> LinkUp ->
  exists e w', save user_id project_id tasks w = (Raise e, w')
               /\ rows w' = rows w.
Proof.
  intros Hdown.
  unfold save_state_to_db, bind, get_db_connection, datetime_now,
    execute_upsert, ret.
  destruct (wire w (dialled w)); [congruence | |]; cbn; eauto.
Qed.

(** ** The renderer *)

Lemma create_gantt_figure_eq (tasks : list Task) :
  create_gantt_figure tasks
  = if (distinct_resources
          (match tasks with [] => DEFAULT_TASKS | _ :: _ => tasks end)
        <=? 6)%nat
    then Ok (chart tasks) else Raise PlotlyError.
Proof.
  unfold create_gantt_figure, ff_create_gantt, distinct_resources, chart,
    gantt_bars.
  set (shown := match tasks with [] => DEFAULT_TASKS | _ :: _ => tasks end).
  rewrite !map_map. cbn [row_task length].
  set (n := length (remove_dups (map Resource shown))).
  change (length (remove_dups (map (fun t => Resource t) shown))) with n.
  destruct (Nat.leb_spec n 6) as [Hle | Hgt].
  - replace (6 <? n)%nat with false
      by (symmetry; apply Nat.ltb_ge; exact Hle).
    reflexivity.
  - replace (6 <? n)%nat with true
      by (symmetry; apply Nat.ltb_lt; exact Hgt).
    reflexivity.
Qed.

(** The end of the callback (lines 212-217) on a list that is not
    empty. *)
Lemma show_tail (tasks : list Task) (status : string) (cleared : bool)
    (w : World) :
  tasks <> [] ->
  (do fig <- lift (create_gantt_figure tasks);
   if cleared
   then ret (mkOutputs fig tasks status
               (Set_ "") (Set_ "") (Set_ "") (Set_ "") (Set_ 0))
   else ret (mkOutputs fig tasks status
               no_update no_update no_update no_update no_update)) w
  = (shows tasks status cleared, w).
Proof.
  intros Hne. unfold bind, lift, shows, outputs.
  rewrite create_gantt_figure_eq.
  destruct tasks as [|t l]; [congruence |].
  destruct (distinct_resources (t :: l) <=? 6)%nat; [| reflexivity].
  destruct cleared; reflexivity.
Qed.

(** ** The callback, step by step *)

Lemma bind_ret_l {A B} (a : A) (k : A -> M B) (w : World) :
  bind (ret a) k w = k a w.
Proof. reflexivity. Qed.

Lemma bind_bind {A B C} (m : M A) (k : A -> M B) (h : B -> M C) (w : World) :
  bind (bind m k) h w = bind m (fun a => bind (k a) h) w.
Proof. unfold bind. destruct (m w) as [[a | e] w']; reflexivity. Qed.

Lemma bind_load {B} (user_id project_id : string)
    (k : option (list Task) -> M B) (w : World) :
  bind (load user_id project_id) k w
  = k (stored_list json_loads user_id project_id w) (dial w).
Proof. unfold bind. now rewrite load_eq. Qed.

Lemma bind_now {B} (k : Z -> M B) (w : World) :
  bind datetime_now k w = k (clock w (ticks w)) (tick w).
Proof. reflexivity. Qed.

Lemma bind_save {B} (user_id project_id : string) (tasks : list Task)
    (k : bool -> M B) (w : World) :
  bind (save user_id project_id tasks) k w
  = match save user_id project_id tasks w with
    | (Ok b, w') => k b w'
    | (Raise e, w') => (Raise e, w')
    end.
Proof. reflexivity. Qed.

Lemma is_id_true (triggered_id : option string) (id : string) :
  is_id triggered_id id = true -> triggered_id = Some id.
Proof.
  destruct triggered_id as [s|]; cbn; [| discriminate].
  intros H. apply String.eqb_eq in H. now subst.
Qed.

Lemma if_else_default (o : option (list Task)) :
  if_else o DEFAULT_TASKS = or_default o.
Proof. now destruct o as [[|t l]|]. Qed.

Lemma or_default_cons (o : option (list Task)) : or_default o <> [].
Proof. destruct o as [[|t l]|]; discriminate. Qed.

Lemma or_default_idem (o : option (list Task)) :
  or_default (Some (or_default o)) = or_default o.
Proof. now destruct o as [[|t l]|]. Qed.

Lemma list_in_hand_cons (f : Form) (w : World) :
  list_in_hand json_loads f w <> [].
Proof. unfold list_in_hand. destruct (stored_data f); apply or_default_cons. Qed.

Lemma world_in_hand_same (f : Form) (w : World) :
  rows (world_in_hand f w) = rows w
  /\ wire (world_in_hand f w) = wire w
  /\ clock (world_in_hand f w) = clock w
  /\ ticks (world_in_hand f w) = ticks w.
Proof. unfold world_in_hand. now destruct (stored_data f). Qed.

(** For a trigger other than Reload the callback goes on from the list
    in hand as a later call that holds that list would. *)
Lemma callback_from_list (triggered_id : option string) (f : Form) (w : World) :
  is_id triggered_id "reload-btn" = false ->
  update_gantt json_dumps json_loads triggered_id f w
  = update_gantt json_dumps json_loads triggered_id
      (with_store f (Some (list_in_hand json_loads f w))) (world_in_hand f w).
Proof.
  intros Hreload. unfold update_gantt. rewrite Hreload.
  cbn [with_store stored_data task_name start_date end_date resource
       complete_pct is_None orb].
  unfold list_in_hand, world_in_hand.
  destruct (stored_data f) as [l|]; cbn [is_None orb].
  - rewrite !bind_ret_l. rewrite !if_else_default, or_default_idem.
    reflexivity.
  - rewrite bind_bind, bind_load, !bind_ret_l.
    rewrite !if_else_default, or_default_idem. reflexivity.
Qed.

(** A later call, holding a list that is not empty, for a trigger other
    than Reload. *)
Lemma callback_shape_held (triggered_id : option string) (f : Form)
    (tasks : list Task) (w : World) :
  is_id triggered_id "reload-btn" = false ->
  tasks <> [] ->
  update_gantt json_dumps json_loads triggered_id
    (with_store f (Some tasks)) w
  = if is_id triggered_id "add-task-btn" && addable f then
      match save USER_ID PROJECT_ID (tasks ++ [task_of_form f])%list w with
      | (Ok _, w') =>
          (shows (tasks ++ [task_of_form f])
             ("✅ Added: '" ++ default "" (task_name f) ++ "'") true, w')
      | (Raise e, w') => (Raise e, w')
      end
    else if is_id triggered_id "manual-save-btn" then
      match save USER_ID PROJECT_ID tasks w with
      | (Ok _, w') =>
          (shows tasks ("✅ Saved at " ++ strftime_HMS (clock w' (ticks w')))
             false, tick w')
      | (Raise e, w') => (Raise e, w')
      end
    else if is_id triggered_id "auto-save-interval" then
      match save USER_ID PROJECT_ID tasks w with
      | (Ok _, w') =>
          (shows tasks
             ("🔄 Auto-saved at " ++ strftime_HMS (clock w' (ticks w')))
             false, tick w')
      | (Raise e, w') => (Raise e, w')
      end
    else (shows tasks "" false, w).
Proof.
  intros Hreload Hne. unfold update_gantt, addable. rewrite Hreload.
  cbn [with_store stored_data task_name start_date end_date resource
       complete_pct is_None orb].
  rewrite bind_ret_l.
  destruct tasks as [|t l]; [congruence |].
  cbn [if_else truthy_list andb]. cbv zeta.
  rewrite <- !andb_assoc. fold (task_of_form f).
  destruct (is_id triggered_id "add-task-btn"
            && (truthy_str (task_name f)
                && (truthy_str (start_date f) && truthy_str (end_date f)))).
  { rewrite bind_bind, bind_save.
    destruct (save USER_ID PROJECT_ID ((t :: l) ++ [task_of_form f])
                w) as [[b|e] w']; [| reflexivity].
    rewrite bind_ret_l. cbv beta iota.
    apply (show_tail _ _ true). discriminate. }
  rewrite andb_true_r.
  destruct (is_id triggered_id "manual-save-btn");
    [| destruct (is_id triggered_id "auto-save-interval")].
  - rewrite bind_bind, bind_save.
    destruct (save USER_ID PROJECT_ID (t :: l) w) as [[b|e] w'];
      [| reflexivity].
    rewrite bind_bind, bind_now, bind_ret_l. cbv beta iota.
    apply (show_tail _ _ false). discriminate.
  - rewrite bind_bind, bind_save.
    destruct (save USER_ID PROJECT_ID (t :: l) w) as [[b|e] w'];
      [| reflexivity].
    rewrite bind_bind, bind_now, bind_ret_l. cbv beta iota.
    apply (show_tail _ _ false). discriminate.
  - rewrite bind_ret_l. cbv beta iota.
    apply (show_tail _ _ false). discriminate.
Qed.

(** What a call does once the list is in hand, for every trigger other
    than Reload. *)
Lemma callback_shape (triggered_id : option string) (f : Form) (w : World) :
  is_id triggered_id "reload-btn" = false ->
  update_gantt json_dumps json_loads triggered_id f w
  = let tasks := list_in_hand json_loads f w in
    let w0 := world_in_hand f w in
    if is_id triggered_id "add-task-btn" && addable f then
      match save USER_ID PROJECT_ID (tasks ++ [task_of_form f])%list w0 with
      | (Ok _, w') =>
          (shows (tasks ++ [task_of_form f])
             ("✅ Added: '" ++ default "" (task_name f) ++ "'") true, w')
      | (Raise e, w') => (Raise e, w')
      end
    else if is_id triggered_id "manual-save-btn" then
      match save USER_ID PROJECT_ID tasks w0 with
      | (Ok _, w') =>
          (shows tasks ("✅ Saved at " ++ strftime_HMS (clock w' (ticks w')))
             false, tick w')
      | (Raise e, w') => (Raise e, w')
      end
    else if is_id triggered_id "auto-save-interval" then
      match save USER_ID PROJECT_ID tasks w0 with
      | (Ok _, w') =>
          (shows tasks
             ("🔄 Auto-saved at " ++ strftime_HMS (clock w' (ticks w')))
             false, tick w')
      | (Raise e, w') => (Raise e, w')
      end
    else (shows tasks "" false, w0).
Proof.
  intros Hreload. rewrite callback_from_list by exact Hreload.
  apply callback_shape_held; [exact Hreload | apply list_in_hand_cons].
Qed.

(** Reload: two loads, and nothing else but the drawing. *)
Lemma callback_reload (f : Form) (w : World) :
  update_gantt json_dumps json_loads (Some "reload-btn") f w
  = (shows
       (match stored_list json_loads USER_ID PROJECT_ID (dial w) with
        | Some (t :: l) => t :: l
        | _ => or_default (stored_list json_loads USER_ID PROJECT_ID w)
        end)
       "✅ Reloaded from database" false,
     dial (dial w)).
Proof.
  unfold update_gantt.
  change (is_id (Some "reload-btn") "reload-btn") with true.
  change (is_id (Some "reload-btn") "add-task-btn") with false.
  change (is_id (Some "reload-btn") "manual-save-btn") with false.
  rewrite orb_true_r. cbn [andb].
  rewrite bind_bind, bind_load, bind_ret_l. cbv zeta.
  rewrite bind_bind, bind_load, bind_ret_l. cbv beta iota.
  rewrite if_else_default.
  pose proof (or_default_cons (stored_list json_loads USER_ID PROJECT_ID w))
    as Hne.
  destruct (stored_list json_loads USER_ID PROJECT_ID (dial w))
    as [[|t l]|]; cbn [if_else]; apply (show_tail _ _ false);
    (exact Hne || discriminate).
Qed.

Lemma save_cases (user_id project_id : string) (tasks : list Task) (w : World) :
  save user_id project_id tasks w
  = (Ok true, written json_dumps user_id project_id tasks w)
  \/ exists e w', save user_id project_id tasks w = (Raise e, w')
                  /\ rows w' = rows w.
Proof.
  destruct (wire w (dialled w)) eqn:Hw.
  - left. now apply save_up.
  - right. apply save_down. congruence.
  - right. apply save_down. congruence.
Qed.

Lemma written_row (user_id project_id : string) (tasks : list Task)
    (w : World) :
  rows (written json_dumps user_id project_id tasks w) !! (user_id, project_id)
  = Some (mkRow (json_dumps tasks)
            (match rows w !! (user_id, project_id) with
             | Some old => created_at old
             | None => clock w (ticks w)
             end)
            (clock w (ticks w))).
Proof.
  unfold written, upsert. cbn [rows].
  destruct (rows w !! (user_id, project_id)); apply lookup_insert_eq.
Qed.

Lemma shows_ok (tasks : list Task) (status : string) (cleared : bool) :
  (distinct_resources tasks <= 6)%nat ->
  shows tasks status cleared = Ok (outputs tasks status cleared).
Proof.
  intros H. unfold shows. apply Nat.leb_le in H. now rewrite H.
Qed.

Lemma shows_raise (tasks : list Task) (status : string) (cleared : bool) :
  (6 < distinct_resources tasks)%nat ->
  shows tasks status cleared = Raise PlotlyError.
Proof.
  intros H. unfold shows. apply Nat.leb_gt in H. now rewrite H.
Qed.

Lemma shows_inv (tasks : list Task) (status : string) (cleared : bool)
    (out : Outputs) :
  shows tasks status cleared = Ok out ->
  out = outputs tasks status cleared /\ (distinct_resources tasks <= 6)%nat.
Proof.
  unfold shows. destruct (Nat.leb_spec (distinct_resources tasks) 6);
    [| discriminate].
  intros [= <-]. now split.
Qed.

Lemma out_store_outputs (tasks : list Task) (status : string)
    (cleared : bool) :
  out_store (outputs tasks status cleared) = tasks
  /\ out_figure (outputs tasks status cleared) = chart tasks
  /\ out_status (outputs tasks status cleared) = status.
Proof. unfold outputs. now destruct cleared. Qed.

Lemma shows_settled (tasks : list Task) (status : string) (cleared : bool)
    (w w' : World) :
  tasks <> [] ->
  rows w' = rows w
  \/ (exists now, rows w' = upsert USER_ID PROJECT_ID (json_dumps tasks) now
                              (rows w)) ->
  settled json_dumps w (shows tasks status cleared, w').
Proof.
  intros Hne Hrows. unfold shows.
  destruct (Nat.leb_spec (distinct_resources tasks) 6) as [Hle | Hgt];
    cbn [settled].
  - destruct (out_store_outputs tasks status cleared) as (-> & -> & _).
    split; [exact Hne |]. split.
    { rewrite create_gantt_figure_eq. destruct tasks as [|t l]; [congruence |].
      apply Nat.leb_le in Hle. now rewrite Hle. }
    split; [| exact Hrows].
    unfold chart. cbn [bars]. rewrite map_map. cbn [bar_task].
    now destruct tasks.
  - destruct Hrows as [H | (now & H)]; [now left |].
    right. exists tasks, now. now split.
Qed.

(** Every run of the callback is [settled]. *)
Lemma callback_settled (triggered_id : option string) (f : Form) (w : World) :
  settled json_dumps w (update_gantt json_dumps json_loads triggered_id f w).
Proof.
  destruct (is_id triggered_id "reload-btn") eqn:Hreload.
  { apply is_id_true in Hreload. subst triggered_id.
    rewrite callback_reload. apply shows_settled; [| now left].
    destruct (stored_list json_loads USER_ID PROJECT_ID (dial w))
      as [[|t l]|]; try apply or_default_cons. discriminate. }
  rewrite callback_shape by exact Hreload. cbv zeta.
  destruct (world_in_hand_same f w) as (Hrows & _).
  pose proof (list_in_hand_cons f w) as Hne.
  set (tasks := list_in_hand json_loads f w) in *.
  set (w0 := world_in_hand f w) in *.
  assert (Hsaved : forall l (status : World -> string) cleared
                          (shift : World -> World),
             l <> [] -> (forall x, rows (shift x) = rows x) ->
             settled json_dumps w
               match save USER_ID PROJECT_ID l w0 with
               | (Ok _, w') => (shows l (status w') cleared, shift w')
               | (Raise e, w') => (Raise e, w')
               end).
  { intros l status cleared shift Hl Hshift.
    destruct (save_cases USER_ID PROJECT_ID l w0)
      as [Hs | (e & w' & Hs & Hr)]; rewrite Hs.
    - apply shows_settled; [exact Hl |]. right.
      exists (clock w0 (ticks w0)). rewrite Hshift. unfold written.
      cbn [rows]. now rewrite Hrows.
    - cbn [settled]. left. now rewrite Hr. }
  destruct (is_id triggered_id "add-task-btn" && addable f).
  { apply (Hsaved _ (fun _ => _) true (fun x => x)); [| reflexivity].
    now destruct tasks. }
  destruct (is_id triggered_id "manual-save-btn").
  { apply (Hsaved _ (fun w' => "✅ Saved at "
                               ++ strftime_HMS (clock w' (ticks w')))
             false tick); [exact Hne | reflexivity]. }
  destruct (is_id triggered_id "auto-save-interval").
  { apply (Hsaved _ (fun w' => "🔄 Auto-saved at "
                               ++ strftime_HMS (clock w' (ticks w')))
             false tick); [exact Hne | reflexivity]. }
  apply shows_settled; [exact Hne | now left].
Qed.

(** ** The claims *)

(** C6: a load never propagates an error.  For every key and every world
    it returns, and what it returns is absent ([None]) when the
    connection or the read fails, when the key has no row, and when the
    row's text does not decode.  The caller then falls back to the
    default list: a call without snapshot and without trigger returns the
    six default tasks as its snapshot, and whatever the trigger, a
    returned snapshot is the default list, the default list with the new
    task appended, or what the second load of a Reload answered. *)
Theorem load_state_from_db_fail_soft (user_id project_id : string) (w : World) :
  (exists v, load user_id project_id w = (Ok v, dial w)) /\
  ((wire w (dialled w) <> LinkUp
    \/ rows w !! (user_id, project_id) = None
    \/ (exists r, rows w !! (user_id, project_id) = Some r
                  /\ json_loads (state_data r) = None))
   -> load user_id project_id w = (Ok None, dial w)) /\
  (forall f : Form,
     stored_data f = None ->
     load USER_ID PROJECT_ID w = (Ok None, dial w) ->
     update_gantt json_dumps json_loads None f w
     = (Ok (mkOutputs (chart DEFAULT_TASKS) DEFAULT_TASKS ""
              no_update no_update no_update no_update no_update),
        dial w)
     /\ forall (triggered_id : option string) (out : Outputs) (w' : World),
          update_gantt json_dumps json_loads triggered_id f w = (Ok out, w') ->
          out_store out = DEFAULT_TASKS
          \/ out_store out = (DEFAULT_TASKS ++ [task_of_form f])%list
          \/ (triggered_id = Some "reload-btn"
              /\ stored_list json_loads USER_ID PROJECT_ID (dial w)
                 = Some (out_store out))).
Proof.
  split; [| split].
  - eexists. apply load_eq.
  - intros H. rewrite load_eq. f_equal. f_equal. unfold stored_list.
    destruct H as [H | [H | (r & Hr & Hd)]].
    + destruct (wire w (dialled w)); congruence.
    + rewrite H. now destruct (wire w (dialled w)).
    + rewrite Hr, Hd. now destruct (wire w (dialled w)).
  - intros f Hnone Hload. rewrite load_eq in Hload.
    injection Hload as Habsent.
    assert (Hlist : list_in_hand json_loads f w = DEFAULT_TASKS)
      by (unfold list_in_hand; now rewrite Hnone, Habsent).
    assert (Hworld : world_in_hand f w = dial w)
      by (unfold world_in_hand; now rewrite Hnone).
    split.
    { rewrite callback_shape by reflexivity. cbv zeta. cbn [is_id andb].
      now rewrite Hlist, Hworld. }
    intros triggered_id out w' Hrun.
    destruct (is_id triggered_id "reload-btn") eqn:Hreload.
    { apply is_id_true in Hreload. subst triggered_id.
      rewrite callback_reload, Habsent in Hrun. injection Hrun as Hrun _.
      apply shows_inv in Hrun as [-> _].
      unfold outputs. cbn [out_store or_default].
      destruct (stored_list json_loads USER_ID PROJECT_ID (dial w))
        as [[|t l]|]; auto. }
    rewrite callback_shape in Hrun by exact Hreload. cbv zeta in Hrun.
    rewrite Hlist, Hworld in Hrun.
    assert (Hout : forall l status cleared (x : World),
               (shows l status cleared, x) = (Ok out, w') ->
               out_store out = l).
    { intros l status cleared x [= H _]. apply shows_inv in H as [-> _].
      now destruct (out_store_outputs l status cleared). }
    destruct (is_id triggered_id "add-task-btn" && addable f).
    { destruct (save USER_ID PROJECT_ID (DEFAULT_TASKS ++ [task_of_form f])
                  (dial w)) as [[b | e] x]; [| discriminate Hrun].
      right. left. eapply Hout. exact Hrun. }
    destruct (is_id triggered_id "manual-save-btn").
    { destruct (save USER_ID PROJECT_ID DEFAULT_TASKS (dial w))
        as [[b | e] x]; [| discriminate Hrun].
      left. eapply Hout. exact Hrun. }
    destruct (is_id triggered_id "auto-save-interval").
    { destruct (save USER_ID PROJECT_ID DEFAULT_TASKS (dial w))
        as [[b | e] x]; [| discriminate Hrun].
      left. eapply Hout. exact Hrun. }
    left. eapply Hout. exact Hrun.
Qed.

(** C10: whatever the trigger, the form and the world, the list that the
    callback draws, returns as the snapshot and writes to the store is
    not empty: a run that returns has a snapshot that is not empty, its
    chart is the chart of that list, and the table is untouched or
    received that list; a run that raises left the table untouched or
    wrote a list that is not empty.  A call that holds an empty snapshot
    is the same call as one that holds the six-task default list, and
    without trigger it returns that list. *)
Theorem callback_never_holds_empty_list (triggered_id : option string)
    (f : Form) (w : World) :
  settled json_dumps w (update_gantt json_dumps json_loads triggered_id f w)
  /\ update_gantt json_dumps json_loads triggered_id (with_store f (Some [])) w
     = update_gantt json_dumps json_loads triggered_id
         (with_store f (Some DEFAULT_TASKS)) w
  /\ update_gantt json_dumps json_loads None (with_store f (Some [])) w
     = (Ok (mkOutputs (chart DEFAULT_TASKS) DEFAULT_TASKS ""
              no_update no_update no_update no_update no_update), w)
  /\ length DEFAULT_TASKS = 6%nat.
Proof.
  split; [apply callback_settled |].
  split; [| split; [| reflexivity]].
  - unfold update_gantt.
    cbn [with_store stored_data task_name start_date end_date resource
         complete_pct is_None orb].
    destruct (is_id triggered_id "reload-btn"); reflexivity.
  - rewrite callback_shape by reflexivity. reflexivity.
Qed.

(** The input fields are left alone by every run that is not a complete
    AddTask. *)
Lemma cleared_only_on_add (triggered_id : option string) (f : Form)
    (w w' : World) (out : Outputs) :
  update_gantt json_dumps json_loads triggered_id f w = (Ok out, w') ->
  inputs_kept out
  \/ (triggered_id = Some "add-task-btn" /\ addable f = true).
Proof.
  assert (Hkept : forall l status (x : World),
             (shows l status false, x) = (Ok out, w') -> inputs_kept out).
  { intros l status x [= H _]. apply shows_inv in H as [-> _].
    now repeat split. }
  destruct (is_id triggered_id "reload-btn") eqn:Hreload.
  { apply is_id_true in Hreload. subst triggered_id.
    rewrite callback_reload. intros H. left. eapply Hkept. exact H. }
  rewrite callback_shape by exact Hreload. cbv zeta.
  destruct (is_id triggered_id "add-task-btn") eqn:Hadd.
  { apply is_id_true in Hadd. destruct (addable f); [now right |].
    cbn [andb]. subst triggered_id. cbn [is_id String.eqb Ascii.eqb
      Bool.eqb]. intros H. left. eapply Hkept. exact H. }
  cbn [andb]. intros H. left. revert H.
  destruct (is_id triggered_id "manual-save-btn");
    [| destruct (is_id triggered_id "auto-save-interval")].
  - destruct (save USER_ID PROJECT_ID (list_in_hand json_loads f w)
                (world_in_hand f w)) as [[b | e] x]; [| discriminate].
    apply Hkept.
  - destruct (save USER_ID PROJECT_ID (list_in_hand json_loads f w)
                (world_in_hand f w)) as [[b | e] x]; [| discriminate].
    apply Hkept.
  - apply Hkept.
Qed.

Lemma blank_not_truthy (o : option string) :
  blank o <-> truthy_str o = false.
Proof.
  unfold blank, truthy_str. destruct o as [s|].
  - destruct (String.eqb_spec s ""); cbn; split; intros H;
      try discriminate; auto.
    + subst. now right.
    + destruct H as [H | H]; congruence.
  - split; auto.
Qed.

Lemma addable_false (f : Form) :
  blank (task_name f) \/ blank (start_date f) \/ blank (end_date f) <->
  addable f = false.
Proof.
  unfold addable. rewrite !blank_not_truthy.
  destruct (truthy_str (task_name f)), (truthy_str (start_date f)),
    (truthy_str (end_date f)); cbn; intuition discriminate.
Qed.

(** C3: an AddTask whose name, start or finish is blank (absent or the
    empty string) is a no-op.  Nothing is written to the table, whatever
    the database does.  The run ends as a run that only shows the list
    it had in hand, which is the snapshot itself when there is one: when
    that list can be drawn it is returned with an empty status and the
    five input fields left alone, and otherwise plotly raises and no
    output changes.  And no run clears the input fields unless it is an
    AddTask with the three fields filled. *)
Theorem add_task_incomplete_is_noop (f : Form) (w : World) :
  blank (task_name f) \/ blank (start_date f) \/ blank (end_date f) ->
  let kept := list_in_hand json_loads f w in
  update_gantt json_dumps json_loads (Some "add-task-btn") f w
  = (shows kept "" false, world_in_hand f w)
  /\ rows (world_in_hand f w) = rows w
  /\ ((distinct_resources kept <= 6)%nat ->
      update_gantt json_dumps json_loads (Some "add-task-btn") f w
      = (Ok (mkOutputs (chart kept) kept ""
               no_update no_update no_update no_update no_update),
         world_in_hand f w))
  /\ (forall M : list Task,
        stored_data f = Some M -> M <> [] ->
        kept = M /\ length kept = length M /\ world_in_hand f w = w)
  /\ (forall (triggered_id : option string) (g : Form) (w0 w1 : World)
             (out : Outputs),
        update_gantt json_dumps json_loads triggered_id g w0 = (Ok out, w1) ->
        ~ inputs_kept out ->
        triggered_id = Some "add-task-btn"
        /\ ~ blank (task_name g) /\ ~ blank (start_date g)
        /\ ~ blank (end_date g)).
Proof.
  intros Hblank kept. apply addable_false in Hblank.
  assert (Hrun : update_gantt json_dumps json_loads (Some "add-task-btn") f w
                 = (shows kept "" false, world_in_hand f w)).
  { rewrite callback_shape by reflexivity. cbv zeta.
    rewrite Hblank. reflexivity. }
  split; [exact Hrun |].
  split; [apply world_in_hand_same |].
  split; [intros Hle; rewrite Hrun, shows_ok by exact Hle; reflexivity |].
  split.
  - intros M HM HMne. subst kept. unfold list_in_hand, world_in_hand.
    rewrite HM. destruct M; [congruence | now repeat split].
  - intros triggered_id g w0 w1 out Hg Hnot.
    destruct (cleared_only_on_add _ _ _ _ _ Hg) as [Hk | [Hid Ha]];
      [contradiction |].
    split; [exact Hid |].
    unfold addable in Ha. apply andb_true_iff in Ha as [Ha H3].
    apply andb_true_iff in Ha as [H1 H2].
    rewrite !blank_not_truthy. rewrite H1, H2, H3. now repeat split.
Qed.

(** A complete AddTask on a store that takes the write. *)
Lemma callback_add (f : Form) (w : World) :
  addable f = true ->
  wire w (dialled (world_in_hand f w)) = LinkUp ->
  let tasks := (list_in_hand json_loads f w ++ [task_of_form f])%list in
  update_gantt json_dumps json_loads (Some "add-task-btn") f w
  = (shows tasks ("✅ Added: '" ++ default "" (task_name f) ++ "'") true,
     written json_dumps USER_ID PROJECT_ID tasks (world_in_hand f w)).
Proof.
  intros Hadd Hup tasks.
  destruct (world_in_hand_same f w) as (_ & Hwire & _).
  rewrite callback_shape by reflexivity. cbv zeta.
  change (is_id (Some "add-task-btn") "add-task-btn") with true.
  cbn [andb]. rewrite Hadd.
  rewrite save_up by (now rewrite Hwire). reflexivity.
Qed.

(** C2: an AddTask with name, start and finish filled in, on a store that
    takes the write.  The list in hand (the snapshot itself when there is
    one) with the new task appended, one longer and the new task last, is
    saved at once: the world after the call is the world in hand after
    one save of that very list, so the session's row holds its text.  The
    task carries the three fields as typed, the resource as typed unless
    it is absent or empty, which gives [Unassigned], and the completion
    as given or 0 when absent.  When the new list names at most six
    resources it is returned as the snapshot with the status and the
    input fields cleared; when it names more, plotly raises after the
    save. *)
Theorem add_task_appends_and_saves (f : Form) (w : World)
    (name start finish : string) :
  task_name f = Some name -> start_date f = Some start ->
  end_date f = Some finish ->
  name <> "" -> start <> "" -> finish <> "" ->
  wire w (dialled (world_in_hand f w)) = LinkUp ->
  let before := list_in_hand json_loads f w in
  let added := mkTask name start finish (or_str (resource f) "Unassigned")
                 (or_int (complete_pct f) 0) in
  let after := (before ++ [added])%list in
  let w' := written json_dumps USER_ID PROJECT_ID after (world_in_hand f w) in
  update_gantt json_dumps json_loads (Some "add-task-btn") f w
  = (shows after ("✅ Added: '" ++ name ++ "'") true, w')
  /\ length after = S (length before)
  /\ last after = Some added
  /\ (forall M : list Task,
        stored_data f = Some M -> M <> [] -> before = M)
  /\ (resource f = None \/ resource f = Some "" ->
      Resource added = "Unassigned")
  /\ (forall r : string,
        resource f = Some r -> r <> "" -> Resource added = r)
  /\ (complete_pct f = None -> Complete added = 0)
  /\ (forall c : Z, complete_pct f = Some c -> Complete added = c)
  /\ (exists row : Row,
        rows w' !! session_key = Some row
        /\ state_data row = json_dumps after)
  /\ ((distinct_resources after <= 6)%nat ->
      update_gantt json_dumps json_loads (Some "add-task-btn") f w
      = (Ok (mkOutputs (chart after) after ("✅ Added: '" ++ name ++ "'")
               (Set_ "") (Set_ "") (Set_ "") (Set_ "") (Set_ 0)), w'))
  /\ ((6 < distinct_resources after)%nat ->
      update_gantt json_dumps json_loads (Some "add-task-btn") f w
      = (Raise PlotlyError, w')).
Proof.
  intros Hname Hstart Hfinish Hn Hs Hf Hup before added after w'.
  assert (Hadd : addable f = true).
  { unfold addable. rewrite Hname, Hstart, Hfinish. cbn [truthy_str].
    apply String.eqb_neq in Hn, Hs, Hf. now rewrite Hn, Hs, Hf. }
  assert (Htask : task_of_form f = added).
  { unfold task_of_form. now rewrite Hname, Hstart, Hfinish. }
  pose proof (callback_add f w Hadd Hup) as Hrun. cbv zeta in Hrun.
  rewrite Htask, Hname in Hrun. cbn [default] in Hrun.
  fold before after w' in Hrun.
  split; [exact Hrun |].
  split; [subst after; rewrite length_app; cbn; lia |].
  split; [apply last_snoc |].
  split.
  { intros M HM HMne. subst before. unfold list_in_hand. rewrite HM.
    now destruct M. }
  split; [intros [H | H]; subst added; cbn; now rewrite H |].
  split.
  { intros r Hr Hrne. subst added. cbn. rewrite Hr. cbn.
    apply String.eqb_neq in Hrne. now rewrite Hrne. }
  split; [intros H; subst added; cbn; now rewrite H |].
  split.
  { intros c Hc. subst added. cbn. rewrite Hc. cbn.
    destruct (Z.eqb_spec c 0); congruence. }
  split.
  { subst w'. unfold session_key. rewrite written_row.
    eexists. now split. }
  split.
  - intros Hle. rewrite Hrun, shows_ok by exact Hle. reflexivity.
  - intros Hgt. rewrite Hrun, shows_raise by exact Hgt. reflexivity.
Qed.

(** C9: a first invocation (no snapshot held) loads before it acts, and
    acts on what it loaded.  With [fresh] the list the load answers, or
    the six default tasks when it answers none or an empty one, every
    trigger works on [fresh] in the world after the load: AddTask saves
    and shows [fresh] with the new task appended, Save Now and the
    auto-save tick save and show [fresh], Reload loads once more and
    falls back on [fresh], and any other call shows [fresh].  When the
    session's row decodes to a list that is not empty, on a working
    connection, [fresh] is that list. *)
Theorem first_invocation_loads_first (f : Form) (w : World) :
  stored_data f = None ->
  let fresh :=
    match stored_list json_loads USER_ID PROJECT_ID w with
    | Some (t :: l) => t :: l
    | _ => DEFAULT_TASKS
    end in
  load USER_ID PROJECT_ID w
  = (Ok (stored_list json_loads USER_ID PROJECT_ID w), dial w)
  /\ fresh <> []
  /\ (forall (r : Row) (stored : list Task),
        wire w (dialled w) = LinkUp ->
        rows w !! session_key = Some r ->
        json_loads (state_data r) = Some stored -> stored <> [] ->
        fresh = stored)
  /\ (addable f = true -> wire w (S (dialled w)) = LinkUp ->
      update_gantt json_dumps json_loads (Some "add-task-btn") f w
      = (shows (fresh ++ [task_of_form f])
           ("✅ Added: '" ++ default "" (task_name f) ++ "'") true,
         written json_dumps USER_ID PROJECT_ID
           (fresh ++ [task_of_form f])%list (dial w)))
  /\ (wire w (S (dialled w)) = LinkUp ->
      update_gantt json_dumps json_loads (Some "manual-save-btn") f w
      = (shows fresh
           ("✅ Saved at " ++ strftime_HMS (clock w (S (ticks w)))) false,
         tick (written json_dumps USER_ID PROJECT_ID fresh (dial w))))
  /\ (wire w (S (dialled w)) = LinkUp ->
      update_gantt json_dumps json_loads (Some "auto-save-interval") f w
      = (shows fresh
           ("🔄 Auto-saved at " ++ strftime_HMS (clock w (S (ticks w))))
           false,
         tick (written json_dumps USER_ID PROJECT_ID fresh (dial w))))
  /\ update_gantt json_dumps json_loads (Some "reload-btn") f w
     = (shows
          (match stored_list json_loads USER_ID PROJECT_ID (dial w) with
           | Some (t :: l) => t :: l
           | _ => fresh
           end)
          "✅ Reloaded from database" false,
        dial (dial w))
  /\ (forall triggered_id : option string,
        is_id triggered_id "add-task-btn" = false ->
        is_id triggered_id "manual-save-btn" = false ->
        is_id triggered_id "reload-btn" = false ->
        is_id triggered_id "auto-save-interval" = false ->
        update_gantt json_dumps json_loads triggered_id f w
        = (shows fresh "" false, dial w)).
Proof.
  intros Hnone fresh.
  assert (Hfresh : fresh
                   = or_default (stored_list json_loads USER_ID PROJECT_ID w))
    by (subst fresh;
        now destruct (stored_list json_loads USER_ID PROJECT_ID w)
          as [[|t l]|]).
  assert (Hlist : list_in_hand json_loads f w = fresh)
    by (unfold list_in_hand; now rewrite Hnone, Hfresh).
  assert (Hworld : world_in_hand f w = dial w)
    by (unfold world_in_hand; now rewrite Hnone).
  split; [apply load_eq |].
  split; [rewrite Hfresh; apply or_default_cons |].
  split.
  { intros r stored Hup Hrow Hdecode Hne. subst fresh.
    unfold stored_list. unfold session_key in Hrow.
    rewrite Hup, Hrow, Hdecode. now destruct stored. }
  split.
  { intros Hadd Hup.
    rewrite callback_add; [| exact Hadd | now rewrite Hworld].
    now rewrite Hlist, Hworld. }
  split.
  { intros Hup. rewrite callback_shape by reflexivity. cbv zeta.
    change (is_id (Some "manual-save-btn") "add-task-btn") with false.
    change (is_id (Some "manual-save-btn") "manual-save-btn") with true.
    cbn [andb]. rewrite Hlist, Hworld.
    rewrite save_up by exact Hup. reflexivity. }
  split.
  { intros Hup. rewrite callback_shape by reflexivity. cbv zeta.
    change (is_id (Some "auto-save-interval") "add-task-btn") with false.
    change (is_id (Some "auto-save-interval") "manual-save-btn") with false.
    change (is_id (Some "auto-save-interval") "auto-save-interval") with true.
    cbn [andb]. rewrite Hlist, Hworld.
    rewrite save_up by exact Hup. reflexivity. }
  split.
  { rewrite callback_reload, <- Hfresh. reflexivity. }
  intros triggered_id Hadd Hsave Hreload Hauto.
  rewrite callback_shape by exact Hreload. cbv zeta.
  now rewrite Hadd, Hsave, Hauto, Hlist, Hworld.
Qed.

(** C1, amended: a Reload both of whose loads return absent returns the
    six-task default list as the snapshot, whatever snapshot the call
    held; the status is the reload message, the input fields are left
    alone and the table is not written. *)
Theorem reload_absent_gives_default (f : Form) (w : World) :
  load USER_ID PROJECT_ID w = (Ok None, dial w) ->
  load USER_ID PROJECT_ID (dial w) = (Ok None, dial (dial w)) ->
  update_gantt json_dumps json_loads (Some "reload-btn") f w
  = (Ok (mkOutputs (chart DEFAULT_TASKS) DEFAULT_TASKS
           "✅ Reloaded from database"
           no_update no_update no_update no_update no_update),
     dial (dial w))
  /\ rows (dial (dial w)) = rows w.
Proof.
  intros H1 H2. rewrite load_eq in H1, H2.
  injection H1 as H1. injection H2 as H2.
  rewrite callback_reload, H1, H2. split; reflexivity.
Qed.

(** C4, amended: two saves of the same list under the same key, both
    going through, leave the same text in the row as one save does, and
    the same creation time; [updated_at] is the clock reading of the
    second save, so the whole row is the same only when the two readings
    are. *)
Theorem save_twice_same_data (user_id project_id : string)
    (tasks : list Task) (w : World) :
  wire w (dialled w) = LinkUp -> wire w (S (dialled w)) = LinkUp ->
  exists (w1 w2 : World) (r1 : Row),
    save user_id project_id tasks w = (Ok true, w1)
    /\ save user_id project_id tasks w1 = (Ok true, w2)
    /\ rows w1 !! (user_id, project_id) = Some r1
    /\ state_data r1 = json_dumps tasks
    /\ updated_at r1 = clock w (ticks w)
    /\ rows w2
       = <[(user_id, project_id) :=
             mkRow (state_data r1) (created_at r1) (clock w (S (ticks w)))]>
           (rows w1)
    /\ (clock w (S (ticks w)) = clock w (ticks w) -> rows w2 = rows w1).
Proof.
  intros Hup1 Hup2.
  set (w1 := written json_dumps user_id project_id tasks w).
  assert (Hr1 : exists c, rows w1 !! (user_id, project_id)
                          = Some (mkRow (json_dumps tasks) c (clock w (ticks w)))).
  { unfold w1, written, upsert. cbn [rows].
    destruct (rows w !! (user_id, project_id));
      eexists; apply lookup_insert_eq. }
  destruct Hr1 as [c Hr1].
  exists w1, (written json_dumps user_id project_id tasks w1),
    (mkRow (json_dumps tasks) c (clock w (ticks w))).
  assert (Hrows2 : rows (written json_dumps user_id project_id tasks w1)
                   = <[(user_id, project_id) :=
                         mkRow (json_dumps tasks) c (clock w (S (ticks w)))]>
                       (rows w1)).
  { unfold written at 1, upsert. cbn [rows]. rewrite Hr1. reflexivity. }
  split; [now apply save_up |].
  split; [now apply save_up |].
  split; [exact Hr1 |].
  split; [reflexivity |].
  split; [reflexivity |].
  split; [exact Hrows2 |].
  intros Hclock. rewrite Hrows2, Hclock. now apply insert_id.
Qed.

(** C5: with a codec that reads back what it writes, a save and then a
    load of the same key, both on a working connection and with no write
    in between, returns the list that was saved. *)
Theorem save_then_load (user_id project_id : string) (tasks : list Task)
    (w : World) :
  (forall l : list Task, json_loads (json_dumps l) = Some l) ->
  wire w (dialled w) = LinkUp -> wire w (S (dialled w)) = LinkUp ->
  exists w1 : World,
    save user_id project_id tasks w = (Ok true, w1)
    /\ load user_id project_id w1 = (Ok (Some tasks), dial w1)
    /\ rows (dial w1) = rows w1.
Proof.
  intros Hcodec Hup1 Hup2.
  exists (written json_dumps user_id project_id tasks w).
  split; [now apply save_up |]. split; [| reflexivity].
  rewrite load_eq. f_equal. f_equal.
  unfold stored_list, written, upsert. cbn [wire dialled rows].
  rewrite Hup2.
  destruct (rows w !! (user_id, project_id));
    rewrite lookup_insert_eq; apply Hcodec.
Qed.

End Properties.

(** ** The chart and its labels *)

Lemma list_ascii_of_append (a b : string) :
  list_ascii_of_string (a ++ b)
  = (list_ascii_of_string a ++ list_ascii_of_string b)%list.
Proof.
  induction a as [|x a IH]; [reflexivity |].
  change (x :: list_ascii_of_string (a ++ b)
          = x :: (list_ascii_of_string a ++ list_ascii_of_string b)%list).
  now rewrite IH.
Qed.

Lemma all_num_Forall (s : string) :
  all_num s = true ->
  Forall (fun c => is_num c = true) (list_ascii_of_string s).
Proof.
  induction s as [|c s IH]; cbn [all_num list_ascii_of_string]; intros H.
  - constructor.
  - apply andb_true_iff in H as [Hc Hs]. constructor; auto.
Qed.

Lemma take_num_stop (k r : list ascii) (c : ascii) :
  Forall (fun c => is_num c = true) k -> is_num c = false ->
  take_num (k ++ c :: r) = k.
Proof.
  intros Hk Hc. induction Hk as [|x k Hx Hk IH]; cbn [take_num app].
  - now rewrite Hc.
  - now rewrite Hx, IH.
Qed.

(** The completion reads back from the label of any task. *)
Lemma parse_task_display (t : Task) :
  parse_completion (task_display t) = Some (Complete t).
Proof.
  unfold parse_completion, task_display.
  rewrite !list_ascii_of_append, !rev_app_distr.
  change (rev (list_ascii_of_string "%)")) with [")"; "%"]%char.
  change (rev (list_ascii_of_string " (")) with ["("; " "]%char.
  cbn [app]. cbn [Ascii.eqb Bool.eqb andb].
  assert (Hnum : Forall (fun c => is_num c = true)
                   (rev (list_ascii_of_string (str_int (Complete t)))))
    by (apply Forall_rev, all_num_Forall, all_num_str_int).
  rewrite <- app_assoc. cbn [app].
  rewrite take_num_stop by (exact Hnum || reflexivity).
  rewrite drop_app_length. cbn [Ascii.eqb Bool.eqb andb].
  rewrite rev_involutive, string_of_list_ascii_of_string.
  apply int_str_str_int.
Qed.

(** C7: the chart of the empty list is the chart of the default seed
    list, and it is drawn: one bar for each of the six default tasks. *)
Theorem render_empty_is_render_default :
  create_gantt_figure [] = create_gantt_figure DEFAULT_TASKS
  /\ (exists fig : Figure,
        create_gantt_figure [] = Ok fig
        /\ length (bars fig) = 6%nat
        /\ bars fig
           = map (fun t => mkBar (Task_ t) (Start t) (Finish t) (Resource t))
               DEFAULT_TASKS).
Proof. split; [reflexivity |]. eexists. repeat split. Qed.

(** C8: the display label of line 84 is computed and then left behind.
    The call of [ff.create_gantt] names no column that holds it, so the
    figure is the same whatever the completions are: replacing every
    completion by any other value gives the same result, and the two
    one-task lists whose labels are [Testing (0%)] and [Testing (50%)]
    have the same figure.  No completion can be read back from it. *)
Theorem completion_never_reaches_chart (T : list Task) (c : Task -> Z) :
  create_gantt_figure
    (map (fun t => mkTask (Task_ t) (Start t) (Finish t) (Resource t) (c t))
       T)
  = create_gantt_figure T
  /\ task_display (mkTask "Testing" "2025-11-25" "2025-12-05" "QA Team" 0)
     <> task_display (mkTask "Testing" "2025-11-25" "2025-12-05" "QA Team" 50)
  /\ create_gantt_figure
       [mkTask "Testing" "2025-11-25" "2025-12-05" "QA Team" 0]
     = create_gantt_figure
         [mkTask "Testing" "2025-11-25" "2025-12-05" "QA Team" 50].
Proof.
  split; [| split; [discriminate | reflexivity]].
  destruct T as [|t l]; [reflexivity |].
  rewrite !create_gantt_figure_eq.
  cbn [map]. unfold distinct_resources, chart.
  cbn [map Resource Task_ Start Finish].
  rewrite !map_map. cbn [Resource Task_ Start Finish]. reflexivity.
Qed.

Lemma append_inv_tail (a b c : string) : a ++ c = b ++ c -> a = b.
Proof.
  intros H. apply (f_equal list_ascii_of_string) in H.
  rewrite !list_ascii_of_append in H. apply app_inv_tail in H.
  apply (f_equal string_of_list_ascii) in H.
  now rewrite !string_of_list_ascii_of_string in H.
Qed.

(** X14: a label names its task without ambiguity.  Two tasks have the
    same display label exactly when they have the same name and the same
    completion, whatever brackets, digits or percent signs the names
    themselves contain. *)
Theorem label_identifies_name_and_completion (t1 t2 : Task) :
  task_display t1 = task_display t2
  <-> Task_ t1 = Task_ t2 /\ Complete t1 = Complete t2.
Proof.
  split.
  - intros H.
    assert (Hc : Complete t1 = Complete t2).
    { pose proof (parse_task_display t1) as H1.
      rewrite H, parse_task_display in H1. now injection H1. }
    split; [| exact Hc].
    unfold task_display in H. rewrite Hc in H.
    now apply append_inv_tail in H.
  - intros [Hn Hc]. unfold task_display. now rewrite Hn, Hc.
Qed.

(** ** The claims at sample inputs *)

(** C1 as first stated fails: a Reload whose load returns absent does
    not keep the snapshot the call held. *)
Lemma reload_absent_loses_snapshot :
  ~ (forall (f : Form) (w w' : World) (M : list Task) (out : Outputs),
       stored_data f = Some M ->
       load_state_from_db Json.loads USER_ID PROJECT_ID w
       = (Ok None, dial w) ->
       update_gantt Json.dumps Json.loads (Some "reload-btn") f w
       = (Ok out, w') ->
       out_store out = M).
Proof.
  intros H.
  assert (Hrun : update_gantt Json.dumps Json.loads (Some "reload-btn")
                   (sample_form (Some [sample_task])) fresh_world
                 = (Ok (outputs DEFAULT_TASKS "✅ Reloaded from database"
                          false),
                    dial (dial fresh_world)))
    by (rewrite callback_reload; reflexivity).
  pose proof (H (sample_form (Some [sample_task])) fresh_world _
                [sample_task] _ eq_refl eq_refl Hrun) as Heq.
  vm_compute in Heq. discriminate Heq.
Qed.

Lemma reload_absent_gives_default_witness :
  update_gantt Json.dumps Json.loads (Some "reload-btn")
    (sample_form (Some [sample_task])) fresh_world
  = (Ok (mkOutputs (chart DEFAULT_TASKS) DEFAULT_TASKS
           "✅ Reloaded from database"
           no_update no_update no_update no_update no_update),
     dial (dial fresh_world))
  /\ rows (dial (dial fresh_world)) = rows fresh_world.
Proof.
  apply (reload_absent_gives_default Json.dumps Json.loads
           (sample_form (Some [sample_task])) fresh_world);
    reflexivity.
Defined.

(** A sixth resource is drawn; a seventh is saved and then not drawn. *)
Lemma add_task_appends_and_saves_witness :
  update_gantt Json.dumps Json.loads (Some "add-task-btn")
    (sample_form (Some DEFAULT_TASKS)) fresh_world
  = (Ok (mkOutputs (chart (DEFAULT_TASKS ++ [sample_task])%list)
           (DEFAULT_TASKS ++ [sample_task])%list "✅ Added: 'T1'"
           (Set_ "") (Set_ "") (Set_ "") (Set_ "") (Set_ 0)),
     written Json.dumps USER_ID PROJECT_ID (DEFAULT_TASKS ++ [sample_task])%list
       fresh_world)
  /\ update_gantt Json.dumps Json.loads (Some "add-task-btn")
       (ops_form (Some (DEFAULT_TASKS ++ [sample_task])%list)) fresh_world
     = (Raise PlotlyError,
        written Json.dumps USER_ID PROJECT_ID
          (DEFAULT_TASKS ++ [sample_task; task_of_form (ops_form None)])%list
          fresh_world).
Proof.
  split.
  - refine (proj1 (proj2 (proj2 (proj2 (proj2 (proj2 (proj2 (proj2 (proj2
             (proj2
                (add_task_appends_and_saves Json.dumps Json.loads
                   (sample_form (Some DEFAULT_TASKS)) fresh_world
                   "T1" "2025-01-01" "2025-01-05"
                   eq_refl eq_refl eq_refl _ _ _ eq_refl)))))))))) _);
      try discriminate.
    apply Nat.leb_le. reflexivity.
  - refine (proj2 (proj2 (proj2 (proj2 (proj2 (proj2 (proj2 (proj2 (proj2
             (proj2
                (add_task_appends_and_saves Json.dumps Json.loads
                   (ops_form (Some (DEFAULT_TASKS ++ [sample_task])%list))
                   fresh_world "T7" "2025-02-01" "2025-02-03"
                   eq_refl eq_refl eq_refl _ _ _ eq_refl)))))))))) _);
      try discriminate.
    apply Nat.ltb_lt. reflexivity.
Defined.

Lemma add_task_incomplete_is_noop_witness :
  blank (task_name (nameless_form (Some DEFAULT_TASKS)))
  /\ update_gantt Json.dumps Json.loads (Some "add-task-btn")
       (nameless_form (Some DEFAULT_TASKS)) fresh_world
     = (Ok (mkOutputs (chart DEFAULT_TASKS) DEFAULT_TASKS ""
              no_update no_update no_update no_update no_update),
        fresh_world).
Proof.
  split; [now right |].
  refine (proj1 (proj2 (proj2
            (add_task_incomplete_is_noop Json.dumps Json.loads
               (nameless_form (Some DEFAULT_TASKS)) fresh_world _))) _).
  - left. now right.
  - apply Nat.leb_le. reflexivity.
Defined.

(** C4 as first stated fails: the second save moves [updated_at], so the
    row after two saves is not the row after one. *)
Lemma save_twice_moves_updated_at :
  ~ (forall (user_id project_id : string) (tasks : list Task)
            (w w1 w2 : World),
       save_state_to_db Json.dumps user_id project_id tasks w = (Ok true, w1) ->
       save_state_to_db Json.dumps user_id project_id tasks w1 = (Ok true, w2) ->
       rows w2 = rows w1).
Proof.
  intros H.
  pose proof (H USER_ID PROJECT_ID [sample_task] fresh_world _ _
                eq_refl eq_refl) as Heq.
  apply (f_equal (fun t => updated_at <$> t !! session_key)) in Heq.
  vm_compute in Heq. discriminate Heq.
Qed.

Lemma save_twice_same_data_witness :
  exists (w1 w2 : World) (r1 : Row),
    save_state_to_db Json.dumps USER_ID PROJECT_ID [sample_task] fresh_world
    = (Ok true, w1)
    /\ save_state_to_db Json.dumps USER_ID PROJECT_ID [sample_task] w1
       = (Ok true, w2)
    /\ rows w1 !! session_key = Some r1
    /\ rows w2 = <[session_key := mkRow (state_data r1) (created_at r1) 1]>
                   (rows w1).
Proof.
  destruct (save_twice_same_data Json.dumps USER_ID PROJECT_ID [sample_task]
              fresh_world eq_refl eq_refl)
    as (w1 & w2 & r1 & H1 & H2 & Hr & _ & _ & Hrows & _).
  exists w1, w2, r1. repeat split; assumption.
Defined.

Lemma save_then_load_witness :
  exists w1 : World,
    save_state_to_db Json.dumps USER_ID PROJECT_ID DEFAULT_TASKS fresh_world
    = (Ok true, w1)
    /\ load_state_from_db Json.loads USER_ID PROJECT_ID w1
       = (Ok (Some DEFAULT_TASKS), dial w1).
Proof.
  destruct (save_then_load Json.dumps Json.loads USER_ID PROJECT_ID
              DEFAULT_TASKS fresh_world JsonFacts.loads_dumps
              eq_refl eq_refl)
    as (w1 & Hsave & Hload & _).
  exists w1. split; assumption.
Defined.

Lemma load_state_from_db_fail_soft_witness :
  load_state_from_db Json.loads USER_ID PROJECT_ID dark_world
  = (Ok None, dial dark_world).
Proof.
  apply (proj1 (proj2 (load_state_from_db_fail_soft Json.dumps Json.loads
                         USER_ID PROJECT_ID dark_world))).
  left. discriminate.
Defined.

(** A first AddTask on a store that holds a list: the task is appended
    to the stored list, not to the default one. *)
Lemma first_invocation_loads_first_witness :
  update_gantt Json.dumps Json.loads (Some "add-task-btn")
    (ops_form None)
    (mkWorld (rows flaky_world) (fun _ => LinkUp) 0 (fun n => Z.of_nat n) 0)
  = (Ok (mkOutputs (chart [sample_task; task_of_form (ops_form None)])
           [sample_task; task_of_form (ops_form None)] "✅ Added: 'T7'"
           (Set_ "") (Set_ "") (Set_ "") (Set_ "") (Set_ 0)),
     written Json.dumps USER_ID PROJECT_ID
       [sample_task; task_of_form (ops_form None)]
       (dial (mkWorld (rows flaky_world) (fun _ => LinkUp) 0
                (fun n => Z.of_nat n) 0))).
Proof.
  exact (proj1 (proj2 (proj2 (proj2
           (first_invocation_loads_first Json.dumps Json.loads
              (ops_form None)
              (mkWorld (rows flaky_world) (fun _ => LinkUp) 0
                 (fun n => Z.of_nat n) 0) eq_refl))))
           eq_refl eq_refl).
Defined.

(** * Further properties of the store and the callback *)

Section Behaviour.

Variable json_dumps : list Task -> string.
Variable json_loads : string -> option (list Task).

#[local] Abbreviation save := (save_state_to_db json_dumps).
#[local] Abbreviation load := (load_state_from_db json_loads).
#[local] Abbreviation callback := (update_gantt json_dumps json_loads).

(** ** The branches of the callback *)

(** X1: Save Now on a store that takes the write.  The list in hand is
    written as it is; the row's [updated_at] is the clock reading taken
    inside the save, while the status shows the reading taken after it.
    When the list names at most six resources it is returned as the
    snapshot with the input fields left alone; when it names more,
    plotly raises after the save. *)
Theorem manual_save_writes_list_in_hand (f : Form) (w : World) :
  wire w (dialled (world_in_hand f w)) = LinkUp ->
  let tasks := list_in_hand json_loads f w in
  let w' := tick (written json_dumps USER_ID PROJECT_ID tasks
                    (world_in_hand f w)) in
  callback (Some "manual-save-btn") f w
  = (shows tasks ("✅ Saved at " ++ strftime_HMS (clock w (S (ticks w))))
       false, w')
  /\ (exists row : Row,
        rows w' !! session_key = Some row
        /\ state_data row = json_dumps tasks
        /\ updated_at row = clock w (ticks w))
  /\ ((distinct_resources tasks <= 6)%nat ->
      callback (Some "manual-save-btn") f w
      = (Ok (mkOutputs (chart tasks) tasks
               ("✅ Saved at " ++ strftime_HMS (clock w (S (ticks w))))
               no_update no_update no_update no_update no_update), w')).
Proof.
  intros Hup tasks w'.
  destruct (world_in_hand_same f w) as (Hrows & Hwire & Hclock & Hticks).
  assert (Hrun : callback (Some "manual-save-btn") f w
                 = (shows tasks
                      ("✅ Saved at " ++ strftime_HMS (clock w (S (ticks w))))
                      false, w')).
  { rewrite callback_shape by reflexivity. cbv zeta.
    change (is_id (Some "manual-save-btn") "add-task-btn") with false.
    change (is_id (Some "manual-save-btn") "manual-save-btn") with true.
    cbn [andb]. rewrite save_up by (now rewrite Hwire).
    fold tasks. unfold written at 1 2. cbn [clock ticks].
    now rewrite Hclock, Hticks. }
  split; [exact Hrun |]. split.
  - subst w'. unfold tick. cbn [rows]. unfold session_key.
    rewrite written_row. eexists. split; [reflexivity |].
    cbn [state_data updated_at]. now rewrite Hclock, Hticks.
  - intros Hle. rewrite Hrun, shows_ok by exact Hle. reflexivity.
Qed.

(** X2: an auto-save tick on a store that takes the write always saves:
    the guard on the list never holds the save back, because the list in
    hand is never empty, and a call that holds an empty snapshot saves
    the six default tasks.  The list is returned as the snapshot when it
    names at most six resources. *)
Theorem auto_save_tick_always_saves (f : Form) (w : World) :
  wire w (dialled (world_in_hand f w)) = LinkUp ->
  let tasks := list_in_hand json_loads f w in
  let w' := tick (written json_dumps USER_ID PROJECT_ID tasks
                    (world_in_hand f w)) in
  tasks <> []
  /\ callback (Some "auto-save-interval") f w
     = (shows tasks
          ("🔄 Auto-saved at " ++ strftime_HMS (clock w (S (ticks w))))
          false, w')
  /\ (exists row : Row,
        rows w' !! session_key = Some row
        /\ state_data row = json_dumps tasks)
  /\ (stored_data f = Some [] -> tasks = DEFAULT_TASKS)
  /\ ((distinct_resources tasks <= 6)%nat ->
      callback (Some "auto-save-interval") f w
      = (Ok (mkOutputs (chart tasks) tasks
               ("🔄 Auto-saved at " ++ strftime_HMS (clock w (S (ticks w))))
               no_update no_update no_update no_update no_update), w')).
Proof.
  intros Hup tasks w'.
  destruct (world_in_hand_same f w) as (Hrows & Hwire & Hclock & Hticks).
  assert (Hrun : callback (Some "auto-save-interval") f w
                 = (shows tasks
                      ("🔄 Auto-saved at "
                       ++ strftime_HMS (clock w (S (ticks w))))
                      false, w')).
  { rewrite callback_shape by reflexivity. cbv zeta.
    change (is_id (Some "auto-save-interval") "add-task-btn") with false.
    change (is_id (Some "auto-save-interval") "manual-save-btn") with false.
    change (is_id (Some "auto-save-interval") "auto-save-interval") with true.
    cbn [andb]. rewrite save_up by (now rewrite Hwire).
    fold tasks. unfold written at 1 2. cbn [clock ticks].
    now rewrite Hclock, Hticks. }
  split; [apply list_in_hand_cons |].
  split; [exact Hrun |]. split.
  { subst w'. unfold tick. cbn [rows]. unfold session_key.
    rewrite written_row. eexists. now split. }
  split.
  - intros Hempty. subst tasks. unfold list_in_hand. now rewrite Hempty.
  - intros Hle. rewrite Hrun, shows_ok by exact Hle. reflexivity.
Qed.

(** X3: a failed save is never swallowed.  When the call takes a saving
    branch (a complete AddTask, Save Now or an auto-save tick) and the
    connection of the save does not go through, the callback raises the
    database's error, returns no output and leaves the table as it
    was. *)
Theorem failed_save_surfaces (triggered_id : option string) (f : Form)
    (w : World) :
  saves triggered_id f = true ->
  wire w (dialled (world_in_hand f w)) <> LinkUp ->
  exists (e : Exn) (w' : World),
    callback triggered_id f w = (Raise e, w')
    /\ (e = OperationalError \/ e = DatabaseError)
    /\ rows w' = rows w.
Proof.
  intros Hsaves Hdown.
  destruct (world_in_hand_same f w) as (Hrows & Hwire & _).
  assert (Hreload : is_id triggered_id "reload-btn" = false).
  { destruct (is_id triggered_id "reload-btn") eqn:H; [| reflexivity].
    apply is_id_true in H. subst triggered_id. discriminate Hsaves. }
  assert (Hsave : forall tasks,
             exists e w', save USER_ID PROJECT_ID tasks (world_in_hand f w)
                          = (Raise e, w')
                          /\ (e = OperationalError \/ e = DatabaseError)
                          /\ rows w' = rows w).
  { intros tasks.
    unfold save_state_to_db, bind, get_db_connection, datetime_now,
      execute_upsert, ret.
    rewrite Hwire.
    destruct (wire w (dialled (world_in_hand f w))); [congruence | |];
      cbn; do 2 eexists; (split; [reflexivity |]); split; auto. }
  rewrite callback_shape by exact Hreload. cbv zeta.
  unfold saves in Hsaves.
  destruct (is_id triggered_id "add-task-btn" && addable f).
  { destruct (Hsave (list_in_hand json_loads f w ++ [task_of_form f])%list)
      as (e & w' & Hs & He & Hr). rewrite Hs. eauto. }
  cbn [orb] in Hsaves.
  destruct (is_id triggered_id "manual-save-btn").
  { destruct (Hsave (list_in_hand json_loads f w))
      as (e & w' & Hs & He & Hr). rewrite Hs. eauto. }
  cbn [orb] in Hsaves. rewrite Hsaves.
  destruct (Hsave (list_in_hand json_loads f w))
    as (e & w' & Hs & He & Hr). rewrite Hs. eauto.
Qed.

(** X4: a call whose trigger is none of the four components, or that
    has no trigger at all, only shows the list in hand: nothing is
    written and the clock is not read; when the list names at most six
    resources it is returned with an empty status and the input fields
    left alone. *)
Theorem other_trigger_only_renders (triggered_id : option string)
    (f : Form) (w : World) :
  is_id triggered_id "add-task-btn" = false ->
  is_id triggered_id "manual-save-btn" = false ->
  is_id triggered_id "reload-btn" = false ->
  is_id triggered_id "auto-save-interval" = false ->
  let kept := list_in_hand json_loads f w in
  callback triggered_id f w = (shows kept "" false, world_in_hand f w)
  /\ rows (world_in_hand f w) = rows w
  /\ ticks (world_in_hand f w) = ticks w
  /\ ((distinct_resources kept <= 6)%nat ->
      callback triggered_id f w
      = (Ok (mkOutputs (chart kept) kept ""
               no_update no_update no_update no_update no_update),
         world_in_hand f w)).
Proof.
  intros Hadd Hsave Hreload Hauto kept.
  destruct (world_in_hand_same f w) as (Hrows & _ & _ & Hticks).
  assert (Hrun : callback triggered_id f w
                 = (shows kept "" false, world_in_hand f w)).
  { rewrite callback_shape by exact Hreload. cbv zeta.
    now rewrite Hadd, Hsave, Hauto. }
  split; [exact Hrun |]. split; [exact Hrows |]. split; [exact Hticks |].
  intros Hle. rewrite Hrun, shows_ok by exact Hle. reflexivity.
Qed.

(** ** Reload *)

(** X5: a Reload works on the stored list as soon as one of its two
    loads gets through: when the session's row decodes to a list that is
    not empty and the first or the second connection works, that list is
    what the call shows, whatever snapshot it held, and it is the
    returned snapshot when it names at most six resources.  Reload never
    writes and never reads the clock. *)
Theorem reload_needs_one_connection (f : Form) (w : World) (r : Row)
    (stored : list Task) :
  rows w !! session_key = Some r ->
  json_loads (state_data r) = Some stored ->
  stored <> [] ->
  wire w (dialled w) = LinkUp \/ wire w (S (dialled w)) = LinkUp ->
  callback (Some "reload-btn") f w
  = (shows stored "✅ Reloaded from database" false, dial (dial w))
  /\ rows (dial (dial w)) = rows w
  /\ ticks (dial (dial w)) = ticks w
  /\ ((distinct_resources stored <= 6)%nat ->
      callback (Some "reload-btn") f w
      = (Ok (mkOutputs (chart stored) stored "✅ Reloaded from database"
               no_update no_update no_update no_update no_update),
         dial (dial w))).
Proof.
  intros Hrow Hdecode Hne Hup.
  assert (Hrun : callback (Some "reload-btn") f w
                 = (shows stored "✅ Reloaded from database" false,
                    dial (dial w))).
  { rewrite callback_reload. unfold stored_list, dial.
    cbn [wire dialled rows]. unfold session_key in Hrow.
    rewrite Hrow, Hdecode.
    destruct stored as [|t l]; [congruence |].
    destruct Hup as [Hup | Hup]; rewrite Hup.
    - now destruct (wire w (S (dialled w))).
    - reflexivity. }
  split; [exact Hrun |]. split; [reflexivity |]. split; [reflexivity |].
  intros Hle. rewrite Hrun, shows_ok by exact Hle. reflexivity.
Qed.

(** ** The store *)

(** X6: a save touches one row.  Every row under another key is as it
    was, whether the save goes through or raises; under its own key a
    save that goes through leaves the new text, the creation time of the
    row it replaced (the time of this save when there was none) and this
    save's time as [updated_at]; a save that raises changes no row. *)
Theorem save_touches_one_row (user_id project_id : string)
    (tasks : list Task) (w : World) (k : string * string) :
  k <> (user_id, project_id) ->
  rows (snd (save user_id project_id tasks w)) !! k = rows w !! k
  /\ (wire w (dialled w) = LinkUp ->
      rows (snd (save user_id project_id tasks w)) !! (user_id, project_id)
      = Some (mkRow (json_dumps tasks)
                (match rows w !! (user_id, project_id) with
                 | Some old => created_at old
                 | None => clock w (ticks w)
                 end)
                (clock w (ticks w))))
  /\ (wire w (dialled w) <> LinkUp ->
      rows (snd (save user_id project_id tasks w)) = rows w
      /\ exists e, fst (save user_id project_id tasks w) = Raise e).
Proof.
  intros Hk. split; [| split].
  - destruct (save_cases json_dumps user_id project_id tasks w)
      as [Hs | (e & w' & Hs & Hr)]; rewrite Hs; cbn [snd].
    + unfold written, upsert. cbn [rows].
      destruct (rows w !! (user_id, project_id));
        now rewrite lookup_insert_ne by congruence.
    + now rewrite Hr.
  - intros Hup. rewrite save_up by exact Hup. cbn [snd]. apply written_row.
  - intros Hdown.
    destruct (save_down json_dumps user_id project_id tasks w Hdown)
      as (e & w' & Hs & Hr).
    rewrite Hs. cbn [fst snd]. split; [exact Hr | eauto].
Qed.

(** X7: the last writer wins.  With a codec that reads back what it
    writes, two saves under the same key followed by a load, all on
    working connections, return the list of the second save; the list of
    the first is gone and the row keeps the creation time of the first
    save. *)
Theorem last_save_wins (user_id project_id : string)
    (first second : list Task) (w : World) :
  (forall l : list Task, json_loads (json_dumps l) = Some l) ->
  wire w (dialled w) = LinkUp -> wire w (S (dialled w)) = LinkUp ->
  wire w (S (S (dialled w))) = LinkUp ->
  exists w1 w2 : World,
    save user_id project_id first w = (Ok true, w1)
    /\ save user_id project_id second w1 = (Ok true, w2)
    /\ load user_id project_id w2 = (Ok (Some second), dial w2)
    /\ (created_at <$> rows w2 !! (user_id, project_id))
       = (created_at <$> rows w1 !! (user_id, project_id)).
Proof.
  intros Hcodec Hup1 Hup2 Hup3.
  set (w1 := written json_dumps user_id project_id first w).
  set (w2 := written json_dumps user_id project_id second w1).
  exists w1, w2.
  split; [now apply save_up |].
  split; [now apply save_up |].
  split.
  - rewrite load_eq. f_equal. f_equal. unfold stored_list.
    change (wire w2 (dialled w2)) with (wire w (S (S (dialled w)))).
    rewrite Hup3. unfold w2. rewrite written_row. cbn [state_data].
    apply Hcodec.
  - unfold w2, w1. rewrite !written_row. reflexivity.
Qed.

(** ** Calls in sequence *)

Lemma saves_not_reload (triggered_id : option string) (f : Form) :
  saves triggered_id f = true -> is_id triggered_id "reload-btn" = false.
Proof.
  intros Hsaves. destruct (is_id triggered_id "reload-btn") eqn:Hreload;
    [| reflexivity].
  apply is_id_true in Hreload. subst triggered_id.
  unfold saves in Hsaves. cbn in Hsaves. discriminate Hsaves.
Qed.

Lemma shows_of_drawn (tasks : list Task) (status : string) (fig : Figure) :
  tasks <> [] ->
  create_gantt_figure tasks = Ok fig ->
  shows tasks status false
  = Ok (mkOutputs fig tasks status
          no_update no_update no_update no_update no_update).
Proof.
  intros Hne Hfig. rewrite create_gantt_figure_eq in Hfig. unfold shows.
  destruct tasks as [|t l]; [congruence |].
  destruct (distinct_resources (t :: l) <=? 6)%nat; [| discriminate Hfig].
  now injection Hfig as <-.
Qed.

(** After a saving run that returns, the session's row holds the text of
    the returned snapshot. *)
Lemma saving_run_row (triggered_id : option string) (f : Form)
    (w w1 : World) (out : Outputs) :
  saves triggered_id f = true ->
  callback triggered_id f w = (Ok out, w1) ->
  exists row : Row, rows w1 !! session_key = Some row
                    /\ state_data row = json_dumps (out_store out).
Proof.
  intros Hsaves Hrun.
  pose proof (saves_not_reload _ _ Hsaves) as Hreload.
  rewrite callback_shape in Hrun by exact Hreload. cbv zeta in Hrun.
  unfold saves in Hsaves.
  assert (Hgoal : forall tasks status cleared (shift : World -> World),
             (forall x, rows (shift x) = rows x) ->
             match save USER_ID PROJECT_ID tasks (world_in_hand f w) with
             | (Ok _, w') => (shows tasks (status w') cleared, shift w')
             | (Raise e, w') => (Raise e, w')
             end = (Ok out, w1) ->
             exists row : Row, rows w1 !! session_key = Some row
                               /\ state_data row
                                  = json_dumps (out_store out)).
  { intros tasks status cleared shift Hshift H.
    destruct (save_cases json_dumps USER_ID PROJECT_ID tasks
                (world_in_hand f w)) as [Hs | (e & w'' & Hs & _)];
      rewrite Hs in H; [| discriminate H].
    injection H as H <-. apply shows_inv in H as [-> _].
    destruct (out_store_outputs tasks
                (status (written json_dumps USER_ID PROJECT_ID tasks
                           (world_in_hand f w))) cleared) as (-> & _).
    rewrite Hshift. unfold session_key. rewrite written_row.
    eexists. now split. }
  destruct (is_id triggered_id "add-task-btn" && addable f).
  { exact (Hgoal _ (fun _ => "✅ Added: '" ++ default "" (task_name f)
                             ++ "'") true (fun x => x)
             (fun x => eq_refl) Hrun). }
  cbn [orb] in Hsaves.
  destruct (is_id triggered_id "manual-save-btn").
  { exact (Hgoal _ (fun w' => "✅ Saved at "
                              ++ strftime_HMS (clock w' (ticks w')))
             false tick (fun x => eq_refl) Hrun). }
  cbn [orb] in Hsaves. rewrite Hsaves in Hrun.
  exact (Hgoal _ (fun w' => "🔄 Auto-saved at "
                            ++ strftime_HMS (clock w' (ticks w')))
           false tick (fun x => eq_refl) Hrun).
Qed.

(** X8: what a run saved is what the next session starts from.  With a
    codec that reads back what it writes, after any run that saved and
    returned (a complete AddTask, Save Now or an auto-save tick), a call
    that holds no snapshot and has no trigger, made on a working
    connection, shows the snapshot that run returned, with the same
    chart. *)
Theorem saved_snapshot_comes_back (triggered_id : option string)
    (f g : Form) (w w1 : World) (out : Outputs) :
  (forall l : list Task, json_loads (json_dumps l) = Some l) ->
  saves triggered_id f = true ->
  callback triggered_id f w = (Ok out, w1) ->
  stored_data g = None ->
  wire w1 (dialled w1) = LinkUp ->
  callback None g w1
  = (Ok (mkOutputs (out_figure out) (out_store out) ""
           no_update no_update no_update no_update no_update),
     dial w1).
Proof.
  intros Hcodec Hsaves Hrun Hnone Hup.
  destruct (saving_run_row _ _ _ _ _ Hsaves Hrun) as (row & Hrow & Hdata).
  pose proof (callback_settled json_dumps json_loads triggered_id f w)
    as Hset.
  rewrite Hrun in Hset. cbn [settled] in Hset.
  destruct Hset as (Hne & Hfig & _).
  rewrite callback_shape by reflexivity. cbv zeta. cbn [is_id andb].
  unfold list_in_hand, world_in_hand. rewrite Hnone.
  unfold stored_list. unfold session_key in Hrow.
  rewrite Hup, Hrow, Hdata, Hcodec.
  destruct (out_store out) as [|t l] eqn:Hstore; [congruence |].
  cbn [or_default]. now rewrite (shows_of_drawn _ _ _ Hne Hfig).
Qed.

(** X9: a returned snapshot is stable.  Handing the snapshot of any run
    back to a call without trigger returns the same snapshot and the
    same chart, and touches neither the database nor the clock. *)
Theorem snapshot_is_stable (triggered_id : option string) (f g : Form)
    (w w1 : World) (out : Outputs) :
  callback triggered_id f w = (Ok out, w1) ->
  callback None (with_store g (Some (out_store out))) w1
  = (Ok (mkOutputs (out_figure out) (out_store out) ""
           no_update no_update no_update no_update no_update),
     w1).
Proof.
  intros Hrun.
  pose proof (callback_settled json_dumps json_loads triggered_id f w)
    as Hset.
  rewrite Hrun in Hset. cbn [settled] in Hset.
  destruct Hset as (Hne & Hfig & _).
  rewrite callback_shape by reflexivity. cbv zeta. cbn [is_id andb].
  unfold list_in_hand, world_in_hand. cbn [with_store stored_data].
  destruct (out_store out) as [|t l] eqn:Hstore; [congruence |].
  cbn [or_default]. now rewrite (shows_of_drawn _ _ _ Hne Hfig).
Qed.

(** X10: two AddTasks in a row, the second holding the snapshot of the
    first, append both tasks in the order of the clicks; nothing is
    merged or dropped, so the same form sent twice gives the task twice.
    The first list must name at most six resources for the first call to
    return; the second call then saves the final list, so the session's
    row holds its text, and returns it when it too can be drawn. *)
Theorem add_task_twice_appends_in_order (f g : Form) (w : World) :
  addable f = true -> addable g = true ->
  wire w (dialled (world_in_hand f w)) = LinkUp ->
  wire w (S (dialled (world_in_hand f w))) = LinkUp ->
  (distinct_resources (list_in_hand json_loads f w ++ [task_of_form f]) <= 6)
    %nat ->
  let both := (list_in_hand json_loads f w
                 ++ [task_of_form f; task_of_form g])%list in
  exists (out1 : Outputs) (w1 w2 : World),
    callback (Some "add-task-btn") f w = (Ok out1, w1)
    /\ out_store out1
       = (list_in_hand json_loads f w ++ [task_of_form f])%list
    /\ callback (Some "add-task-btn")
         (with_store g (Some (out_store out1))) w1
       = (shows both ("✅ Added: '" ++ default "" (task_name g) ++ "'") true,
          w2)
    /\ (exists row : Row,
          rows w2 !! session_key = Some row
          /\ state_data row = json_dumps both).
Proof.
  intros Hf Hg Hup1 Hup2 Hle both.
  pose proof (callback_add json_dumps json_loads f w Hf Hup1) as Hrun1.
  cbv zeta in Hrun1.
  set (l1 := (list_in_hand json_loads f w ++ [task_of_form f])%list) in *.
  set (w1 := written json_dumps USER_ID PROJECT_ID l1 (world_in_hand f w))
    in *.
  rewrite shows_ok in Hrun1 by exact Hle.
  assert (Hl1 : l1 <> []) by (unfold l1; now destruct (list_in_hand _ f w)).
  assert (Hhand : list_in_hand json_loads (with_store g (Some l1)) w1 = l1).
  { unfold list_in_hand. cbn [with_store stored_data].
    destruct l1; [congruence | reflexivity]. }
  destruct (world_in_hand_same f w) as (_ & Hwire & _).
  pose proof (callback_add json_dumps json_loads (with_store g (Some l1)) w1)
    as Hrun2.
  cbv zeta in Hrun2. rewrite Hhand in Hrun2.
  assert (Hboth : (l1 ++ [task_of_form (with_store g (Some l1))])%list = both)
    by (unfold l1, both; now rewrite <- app_assoc).
  rewrite Hboth in Hrun2.
  destruct (out_store_outputs l1
              ("✅ Added: '" ++ default "" (task_name f) ++ "'") true)
    as (Hstore & _).
  do 3 eexists. split; [exact Hrun1 |]. rewrite Hstore.
  split; [reflexivity |]. split.
  { apply Hrun2; [exact Hg |].
    change (wire (world_in_hand f w) (S (dialled (world_in_hand f w)))
            = LinkUp).
    now rewrite Hwire. }
  unfold session_key. rewrite written_row. eexists. now split.
Qed.

(** X11: a first load that fails is not harmless once the store is back.
    When a session without snapshot cannot reach the store it shows the
    default list; the auto-save tick that follows, holding that snapshot
    and finding the store reachable, writes the default list over
    whatever list the session's row held. *)
Theorem failed_load_then_tick_overwrites (f g : Form) (w : World) :
  stored_data f = None ->
  wire w (dialled w) <> LinkUp ->
  wire w (S (dialled w)) = LinkUp ->
  exists (out1 out2 : Outputs) (w2 : World),
    callback None f w = (Ok out1, dial w)
    /\ out_store out1 = DEFAULT_TASKS
    /\ callback (Some "auto-save-interval")
         (with_store g (Some (out_store out1))) (dial w) = (Ok out2, w2)
    /\ (exists row : Row,
          rows w2 !! session_key = Some row
          /\ state_data row = json_dumps DEFAULT_TASKS).
Proof.
  intros Hnone Hdown Hup.
  assert (Habsent : stored_list json_loads USER_ID PROJECT_ID w = None).
  { unfold stored_list. destruct (wire w (dialled w)); congruence. }
  exists (outputs DEFAULT_TASKS "" false). do 2 eexists. split.
  { rewrite callback_shape by reflexivity. cbv zeta. cbn [is_id andb].
    unfold list_in_hand, world_in_hand. rewrite Hnone, Habsent.
    reflexivity. }
  split; [reflexivity |]. split.
  { rewrite callback_shape by reflexivity. cbv zeta.
    change (is_id (Some "auto-save-interval") "add-task-btn") with false.
    change (is_id (Some "auto-save-interval") "manual-save-btn") with false.
    change (is_id (Some "auto-save-interval") "auto-save-interval") with true.
    cbn [andb]. unfold list_in_hand, world_in_hand.
    cbn [with_store stored_data outputs out_store or_default DEFAULT_TASKS].
    rewrite save_up by exact Hup. reflexivity. }
  cbn [tick rows]. unfold session_key. rewrite written_row.
  eexists. now split.
Qed.


(** ** The trigger *)

Lemma before_dot_append (id rest : string) :
  before_dot id = id -> before_dot (id ++ String "." rest) = id.
Proof.
  induction id as [|c id IH]; intros Hid.
  - reflexivity.
  - change (before_dot (String c (id ++ String "." rest)) = String c id).
    cbn [before_dot] in Hid |- *.
    destruct (Ascii.eqb c "."); [discriminate Hid |].
    injection Hid as Hid. now rewrite IH.
Qed.

(** X12: the trigger is the component id of the first entry of the
    context.  For an id without a dot, a context whose first [prop_id]
    is the id, a dot and a property name runs the callback for that id,
    whatever entries follow; an empty context runs it without trigger. *)
Theorem trigger_is_first_component (id prop : string)
    (rest : list TriggeredProp) (f : Form) (w : World) :
  before_dot id = id ->
  update_gantt_ctx json_dumps json_loads
    (mkTriggeredProp (id ++ "." ++ prop) :: rest) f w
  = callback (Some id) f w
  /\ update_gantt_ctx json_dumps json_loads [] f w = callback None f w.
Proof.
  intros Hid. split; [| reflexivity].
  unfold update_gantt_ctx, triggered_id_of. cbn [prop_id].
  change ("." ++ prop) with (String "." prop).
  now rewrite before_dot_append.
Qed.

End Behaviour.

(** ** The further properties at sample inputs *)

Lemma manual_save_writes_list_in_hand_witness :
  update_gantt Json.dumps Json.loads (Some "manual-save-btn")
    (sample_form (Some DEFAULT_TASKS)) fresh_world
  = (Ok (mkOutputs (chart DEFAULT_TASKS) DEFAULT_TASKS
           "✅ Saved at 00:00:01"
           no_update no_update no_update no_update no_update),
     tick (written Json.dumps USER_ID PROJECT_ID DEFAULT_TASKS fresh_world)).
Proof.
  refine (proj2 (proj2 (manual_save_writes_list_in_hand Json.dumps Json.loads
                          (sample_form (Some DEFAULT_TASKS)) fresh_world
                          eq_refl)) _).
  apply Nat.leb_le. reflexivity.
Defined.

Lemma auto_save_tick_always_saves_witness :
  update_gantt Json.dumps Json.loads (Some "auto-save-interval")
    (sample_form (Some [])) fresh_world
  = (Ok (mkOutputs (chart DEFAULT_TASKS) DEFAULT_TASKS
           "🔄 Auto-saved at 00:00:01"
           no_update no_update no_update no_update no_update),
     tick (written Json.dumps USER_ID PROJECT_ID DEFAULT_TASKS fresh_world)).
Proof.
  refine (proj2 (proj2 (proj2 (proj2
            (auto_save_tick_always_saves Json.dumps Json.loads
               (sample_form (Some [])) fresh_world eq_refl)))) _).
  apply Nat.leb_le. reflexivity.
Defined.

Lemma failed_save_surfaces_witness :
  exists (e : Exn) (w' : World),
    update_gantt Json.dumps Json.loads (Some "auto-save-interval")
      (sample_form (Some DEFAULT_TASKS)) dark_world = (Raise e, w')
    /\ (e = OperationalError \/ e = DatabaseError)
    /\ rows w' = rows dark_world.
Proof.
  apply (failed_save_surfaces Json.dumps Json.loads
           (Some "auto-save-interval") (sample_form (Some DEFAULT_TASKS))
           dark_world).
  - reflexivity.
  - discriminate.
Defined.

Lemma other_trigger_only_renders_witness :
  update_gantt Json.dumps Json.loads (Some "gantt-chart")
    (sample_form (Some [sample_task])) dark_world
  = (Ok (mkOutputs (chart [sample_task]) [sample_task] ""
           no_update no_update no_update no_update no_update),
     dark_world).
Proof.
  refine (proj2 (proj2 (proj2
            (other_trigger_only_renders Json.dumps Json.loads
               (Some "gantt-chart") (sample_form (Some [sample_task]))
               dark_world eq_refl eq_refl eq_refl eq_refl))) _).
  apply Nat.leb_le. reflexivity.
Defined.

Lemma reload_needs_one_connection_witness :
  update_gantt Json.dumps Json.loads (Some "reload-btn")
    (sample_form (Some DEFAULT_TASKS)) flaky_world
  = (Ok (mkOutputs (chart [sample_task]) [sample_task]
           "✅ Reloaded from database"
           no_update no_update no_update no_update no_update),
     dial (dial flaky_world)).
Proof.
  refine (proj2 (proj2 (proj2
            (reload_needs_one_connection Json.dumps Json.loads
               (sample_form (Some DEFAULT_TASKS)) flaky_world
               (mkRow (Json.dumps [sample_task]) 0 0) [sample_task]
               _ _ _ _))) _).
  - reflexivity.
  - reflexivity.
  - discriminate.
  - right. reflexivity.
  - apply Nat.leb_le. reflexivity.
Defined.

Lemma save_touches_one_row_witness :
  rows (snd (save_state_to_db Json.dumps "ann" "plan" [sample_task]
               flaky_world)) !! session_key
  = rows flaky_world !! session_key.
Proof.
  refine (proj1 (save_touches_one_row Json.dumps "ann" "plan" [sample_task]
                   flaky_world session_key _)).
  discriminate.
Defined.

Lemma last_save_wins_witness :
  exists w1 w2 : World,
    save_state_to_db Json.dumps USER_ID PROJECT_ID DEFAULT_TASKS fresh_world
    = (Ok true, w1)
    /\ save_state_to_db Json.dumps USER_ID PROJECT_ID [sample_task] w1
       = (Ok true, w2)
    /\ load_state_from_db Json.loads USER_ID PROJECT_ID w2
       = (Ok (Some [sample_task]), dial w2).
Proof.
  destruct (last_save_wins Json.dumps Json.loads USER_ID PROJECT_ID
              DEFAULT_TASKS [sample_task] fresh_world
              JsonFacts.loads_dumps eq_refl eq_refl eq_refl)
    as (w1 & w2 & H1 & H2 & H3 & _).
  exists w1, w2. repeat split; assumption.
Defined.

Lemma saved_snapshot_comes_back_witness :
  exists (out : Outputs) (w1 : World),
    update_gantt Json.dumps Json.loads (Some "add-task-btn")
      (sample_form (Some DEFAULT_TASKS)) fresh_world = (Ok out, w1)
    /\ out_store out = (DEFAULT_TASKS ++ [sample_task])%list
    /\ update_gantt Json.dumps Json.loads None (sample_form None) w1
       = (Ok (mkOutputs (out_figure out) (out_store out) ""
                no_update no_update no_update no_update no_update),
          dial w1).
Proof.
  pose proof (callback_add Json.dumps Json.loads
                (sample_form (Some DEFAULT_TASKS)) fresh_world
                eq_refl eq_refl) as Hrun.
  cbv zeta in Hrun.
  rewrite shows_ok in Hrun by (apply Nat.leb_le; reflexivity).
  do 2 eexists. split; [exact Hrun |]. split; [reflexivity |].
  apply (saved_snapshot_comes_back Json.dumps Json.loads
           (Some "add-task-btn") (sample_form (Some DEFAULT_TASKS))
           (sample_form None) fresh_world);
    [exact JsonFacts.loads_dumps | reflexivity | exact Hrun
    | reflexivity | reflexivity].
Defined.

Lemma snapshot_is_stable_witness :
  exists (out : Outputs) (w1 : World),
    update_gantt Json.dumps Json.loads (Some "reload-btn")
      (sample_form None) flaky_world = (Ok out, w1)
    /\ out_store out = [sample_task]
    /\ update_gantt Json.dumps Json.loads None
         (with_store (sample_form None) (Some (out_store out))) w1
       = (Ok (mkOutputs (out_figure out) (out_store out) ""
                no_update no_update no_update no_update no_update),
          w1).
Proof.
  assert (Hrun : update_gantt Json.dumps Json.loads (Some "reload-btn")
                   (sample_form None) flaky_world
                 = (Ok (outputs [sample_task] "✅ Reloaded from database"
                          false),
                    dial (dial flaky_world)))
    by (rewrite callback_reload; reflexivity).
  do 2 eexists. split; [exact Hrun |]. split; [reflexivity |].
  apply (snapshot_is_stable Json.dumps Json.loads (Some "reload-btn")
           (sample_form None) (sample_form None) flaky_world).
  exact Hrun.
Defined.

Lemma add_task_twice_appends_in_order_witness :
  exists (out1 : Outputs) (w1 w2 : World),
    update_gantt Json.dumps Json.loads (Some "add-task-btn")
      (sample_form (Some DEFAULT_TASKS)) fresh_world = (Ok out1, w1)
    /\ update_gantt Json.dumps Json.loads (Some "add-task-btn")
         (with_store (sample_form None) (Some (out_store out1))) w1
       = (Ok (outputs (DEFAULT_TASKS ++ [sample_task; sample_task])%list
                "✅ Added: 'T1'" true), w2).
Proof.
  destruct (add_task_twice_appends_in_order Json.dumps Json.loads
              (sample_form (Some DEFAULT_TASKS)) (sample_form None)
              fresh_world eq_refl eq_refl eq_refl eq_refl
              ltac:(apply Nat.leb_le; reflexivity))
    as (out1 & w1 & w2 & H1 & _ & H2 & _).
  exists out1, w1, w2. split; [exact H1 | exact H2].
Defined.

Lemma failed_load_then_tick_overwrites_witness :
  exists (out1 out2 : Outputs) (w2 : World),
    update_gantt Json.dumps Json.loads None (sample_form None) flaky_world
    = (Ok out1, dial flaky_world)
    /\ out_store out1 = DEFAULT_TASKS
    /\ update_gantt Json.dumps Json.loads (Some "auto-save-interval")
         (with_store (sample_form None) (Some (out_store out1)))
         (dial flaky_world) = (Ok out2, w2)
    /\ (exists row : Row,
          rows w2 !! session_key = Some row
          /\ state_data row = Json.dumps DEFAULT_TASKS)
    /\ (state_data <$> rows flaky_world !! session_key)
       = Some (Json.dumps [sample_task]).
Proof.
  destruct (failed_load_then_tick_overwrites Json.dumps Json.loads
              (sample_form None) (sample_form None) flaky_world
              eq_refl ltac:(discriminate) eq_refl)
    as (out1 & out2 & w2 & H1 & H2 & H3 & H4).
  exists out1, out2, w2. repeat split; try assumption.
Defined.


Lemma trigger_is_first_component_witness :
  update_gantt_ctx Json.dumps Json.loads
    [mkTriggeredProp "add-task-btn.n_clicks";
     mkTriggeredProp "auto-save-interval.n_intervals"]
    (sample_form (Some DEFAULT_TASKS)) fresh_world
  = update_gantt Json.dumps Json.loads (Some "add-task-btn")
      (sample_form (Some DEFAULT_TASKS)) fresh_world.
Proof.
  exact (proj1 (trigger_is_first_component Json.dumps Json.loads
                  "add-task-btn" "n_clicks"
                  [mkTriggeredProp "auto-save-interval.n_intervals"]
                  (sample_form (Some DEFAULT_TASKS)) fresh_world eq_refl)).
Defined.
